(** * jg::mock: the binding and the interception engine of [jg_mock.h]

    A shallow embedding of [namespace jg::detail] of [src/inc/jg_mock.h]
    (the classes [mock_aux_parameters], [verified], [mock_aux_return],
    [mock_aux], [mock_impl_base], [mock_impl] and the function that the
    [JG_MOCK] macro defines) and of the macros that [JG_MOCK] is made of,
    followed by the properties of the binding that the specification
    states and by further properties of the code.

    Conventions.
    - A C++ template instantiation is a Rocq application: the return type
      is an [rtype], the parameter pack is a [list ctype].
    - [size_t] is a 64-bit unsigned integer: an [N] below [2^64] whose
      increment wraps around.
    - [std::string] is [string].
    - A call returns, throws, or terminates the process; this is the
      [run] type, threaded through the engine by a small monad.

    Outside the model.
    - Mock functions that return a reference: return types are value
      types here.  The specialisation of [verified] for reference types,
      which holds a pointer, is modelled on its own.
    - In the first engine, callables that write the binding they are
      assigned to (a re-entrant call of the mock function, [reset()]
      from inside the callable): there a callable reads the binding and
      reads and writes the rest of the test state.  The engine of
      [General] takes callables of any kind.
    - Threads: the framework has no synchronisation, and a binding is
      used by one caller at a time. *)

From Stdlib Require Import List String Ascii NArith ZArith Bool Lia.
Import ListNotations.

Set Implicit Arguments.

(** ** C++ value types

    The framework stores copies of values and value-initialises them
    ([T value{}], a default-constructed [std::tuple]); it never looks
    inside them.  A [ctype] is therefore a carrier with its
    value-initialised element [T{}].  [base_t<T>] strips [const] and
    references: the carrier of [const int&] is the carrier of [int]. *)
Record ctype : Type := CType { carrier :> Type; value_init : carrier }.

(** The return type of a mocked function: [void], or a value type. *)
Inductive rtype : Type :=
| Void
| NonVoid (T : ctype).

(** What a call hands back to its caller: nothing for [void]. *)
Definition returned (R : rtype) : Type :=
  match R with
  | Void => unit
  | NonVoid T => carrier T
  end.

(** ** [size_t] *)
Definition SIZE_BITS : N := 64.
Definition SIZE_MOD : N := 2 ^ SIZE_BITS.

(** [m_count++] on a [size_t]. *)
Definition size_incr (n : N) : N := ((n + 1) mod SIZE_MOD)%N.

(** ** [tuple_params_t<Params...>] = [std::tuple<base_t<Params>...>] *)
Fixpoint tuple_params_t (Params : list ctype) : Type :=
  match Params with
  | [] => unit
  | P :: Ps => (carrier P * tuple_params_t Ps)%type
  end.

(** The default constructor of [std::tuple] value-initialises every
    element. *)
Fixpoint tuple_init (Params : list ctype) : tuple_params_t Params :=
  match Params with
  | [] => tt
  | P :: Ps => (value_init P, tuple_init Ps)
  end.

Definition unit_t : ctype := CType tt.

(** [nth_param_base_t<N, Params...>], 0-based.  Outside the pack the C++
    program is ill-formed; the model answers with the one-element type. *)
Definition nth_param_base_t (N : nat) (Params : list ctype) : ctype :=
  nth N Params unit_t.

(** [std::get<N>(t)], 0-based. *)
Fixpoint get (N : nat) (Params : list ctype)
  : tuple_params_t Params -> nth_param_base_t N Params :=
  match N as n, Params as Ps
        return tuple_params_t Ps -> nth_param_base_t n Ps with
  | O, [] => fun _ => tt
  | O, _ :: _ => fun t => fst t
  | S _, [] => fun _ => tt
  | S n, _ :: Ps => fun t => get n Ps (snd t)
  end.

(** ** [jg::trim] *)

(** Modelled from the spec: part of [jg::trim], see below.  [c] is one
    of [chars]. *)
Fixpoint mem_char (c : ascii) (chars : string) : bool :=
  match chars with
  | EmptyString => false
  | String d chars' => Ascii.eqb c d || mem_char c chars'
  end.

(** Modelled from the spec: part of [jg::trim], see below.  [s] without
    the characters of [chars] it begins with. *)
Fixpoint trim_left (s chars : string) : string :=
  match s with
  | EmptyString => EmptyString
  | String c s' => if mem_char c chars then trim_left s' chars else s
  end.

(** Modelled from the spec: part of [jg::trim], see below.  [s] without
    the characters of [chars] it ends with. *)
Fixpoint trim_right (s chars : string) : string :=
  match s with
  | EmptyString => EmptyString
  | String c s' =>
      match trim_right s' chars with
      | EmptyString => if mem_char c chars then EmptyString
                       else String c EmptyString
      | r => String c r
      end
  end.

(** Modelled from the spec: [jg_string.h], which declares [jg::trim], is
    not among the sources.  The specification calls it a string-trimming
    helper that removes the surrounding whitespace of the signature
    description; [mock_aux] calls it as [trim(prototype, " ")].  The model
    removes, at both ends of [s], every character that occurs in
    [chars]. *)
Definition trim (s chars : string) : string :=
  trim_left (trim_right s chars) chars.

(** Every character of [s] occurs in [chars]. *)
Fixpoint all_in (chars s : string) : bool :=
  match s with
  | EmptyString => true
  | String c s' => mem_char c chars && all_in chars s'
  end.

(** [s] begins with a character of [chars]. *)
Definition starts_in (chars s : string) : bool :=
  match s with
  | EmptyString => false
  | String c _ => mem_char c chars
  end.

(** [s] ends with a character of [chars]. *)
Fixpoint ends_in (chars s : string) : bool :=
  match s with
  | EmptyString => false
  | String c s' =>
      match s' with
      | EmptyString => mem_char c chars
      | String _ _ => ends_in chars s'
      end
  end.

(** [t] is [s] without the characters of [chars] that surround it. *)
Definition trimmed_of (chars s t : string) : Prop :=
  (exists l r, s = (l ++ t ++ r)%string
               /\ all_in chars l = true /\ all_in chars r = true)
  /\ starts_in chars t = false
  /\ ends_in chars t = false.

(** ** [jg::verify] *)

(** Modelled from the spec: [jg_verify.h] is not among the sources.  The
    specification describes [verify] as failing fast when its condition
    is false, "configurable externally to abort, throw, or
    log-and-continue"; the comment on [mock_impl_base] in [jg_mock.h]
    says the same (by default an assertion failure, otherwise the call
    goes on and the default value is returned).  The configuration is a
    compile-time choice, here a parameter of the engine. *)
Inductive verify_policy : Type :=
| verify_abort
| verify_throw
| verify_continue.

(** ** [verified<T>], the specialisation for non-reference [T] *)
Record verified (T : ctype) : Type :=
  Verified { value : T; assigned : bool }.

(** [T value{}; bool assigned = false;] *)
Definition verified_init (T : ctype) : verified T :=
  Verified T (value_init T) false.

(** [verified& operator=(const T& other)] (and the rvalue overload). *)
Definition verified_assign (T : ctype) (other : T) (v : verified T)
  : verified T :=
  Verified T other true.

(** ** [mock_aux_return<T>]: a [result] member unless [T] is [void] *)
Definition mock_aux_return (R : rtype) : Type :=
  match R with
  | Void => unit
  | NonVoid T => verified T
  end.

Definition mock_aux_return_init (R : rtype) : mock_aux_return R :=
  match R with
  | Void => tt
  | NonVoid T => verified_init T
  end.

Section Engine.

(** [W] is the state of the test program outside the binding, the
    part that a callable assigned to [func] reads and writes; [exn] is
    the type of C++ exception objects. *)
Context {W exn : Type}.

(** How an evaluation that comes back ends. *)
Inductive completion (A : Type) : Type :=
| Normal (a : A)
| Raised (e : exn).

(** An evaluation either terminates the process ([Aborted], with the
    state at that point) or comes back to its caller ([Exited]). *)
Inductive run (S A : Type) : Type :=
| Aborted (s : S)
| Exited (c : completion A) (s : S).

Definition M (S A : Type) : Type := S -> run S A.

Definition ret {S A : Type} (a : A) : M S A :=
  fun s => Exited (Normal a) s.

Definition throw {S A : Type} (e : exn) : M S A :=
  fun s => Exited (Raised A e) s.

Definition bind {S A B : Type} (m : M S A) (k : A -> M S B) : M S B :=
  fun s =>
    match m s with
    | Aborted _ s' => Aborted B s'
    | Exited (Raised _ e) s' => Exited (Raised B e) s'
    | Exited (Normal a) s' => k a s'
    end.

Definition modify {S : Type} (f : S -> S) : M S unit :=
  fun s => Exited (Normal tt) (f s).

Local Notation "m1 ;; m2" := (bind m1 (fun _ => m2))
  (at level 61, right associativity).

(** A temporary is destroyed when the full-expression that created it
    is left, by a return or by an exception unwinding the stack; when
    the process is terminated nothing runs any more. *)
Definition with_destructor {S A : Type} (m : M S A) (dtor : S -> S)
  : M S A :=
  fun s =>
    match m s with
    | Aborted _ s' => Aborted A s'
    | Exited c s' => Exited c (dtor s')
    end.

(** The state in which an evaluation ended. *)
Definition final_state {S A : Type} (r : run S A) : S :=
  match r with
  | Aborted _ s => s
  | Exited _ s => s
  end.

(** The evaluation came back with a value. *)
Definition returns_value {S A : Type} (r : run S A) : Prop :=
  match r with
  | Exited (Normal _) _ => True
  | _ => False
  end.

(** *** [mock_aux<T, Params...>]

    The members of a binding other than [func]: the base classes
    [mock_aux_return<T>] and [mock_aux_parameters<N, Params...>], and
    the private [m_count] and [m_prototype]. *)
Record aux_data (R : rtype) (Params : list ctype) : Type :=
  AuxData {
      result : mock_aux_return R;
      m_params : tuple_params_t Params;
      m_count : N;
      m_prototype : string
    }.

(** [std::function<T(Params...)>].  The callable receives the
    arguments, may read the binding it is installed on (as a lambda
    that captured the mock object by reference would), reads and
    writes the test state, and returns or throws.  A callable that
    writes the binding it is installed on (by calling the mock function
    again, or [reset()]) is not a [function]: the engine for callables
    of any kind is [General], below, and [restricted_is_general] says
    how the two are related. *)
Definition function (R : rtype) (Params : list ctype) : Type :=
  tuple_params_t Params -> aux_data R Params -> W ->
  completion (returned R) * W.

(** The binding; [func = None] is the empty [std::function]. *)
Record mock_aux (R : rtype) (Params : list ctype) : Type :=
  MockAux {
      data : aux_data R Params;
      func : option (function R Params)
    }.

(** The program state: the binding, the rest of the test state, and
    the conditions that [verify] has been called with, newest first. *)
Record process (R : rtype) (Params : list ctype) : Type :=
  Process {
      aux : mock_aux R Params;
      world : W;
      verify_log : list bool
    }.

(** *** The verification primitive and the return slot *)

(** The exception that [verify] throws under [verify_throw]. *)
Variable verify_error : exn.
Variable policy : verify_policy.

Definition log_verify {R Params} (condition : bool)
           (s : process R Params) : process R Params :=
  Process (aux s) (world s) (condition :: verify_log s).

(** Modelled from the spec: [jg::verify] is declared in [jg_verify.h],
    which is not among the sources.  [verify(condition)]: nothing
    happens when the condition holds; when it does not, the configured
    failure path is taken: the process is terminated, or an error is
    thrown, or the failure is reported and the caller goes on.  The log
    of conditions is a ghost of the model, there to tell whether
    [verify] was called. *)
Definition verify {R Params} (condition : bool)
  : M (process R Params) unit :=
  fun s =>
    let s' := log_verify condition s in
    if condition then Exited (Normal tt) s'
    else match policy with
         | verify_abort => Aborted unit s'
         | verify_throw => Exited (Raised unit verify_error) s'
         | verify_continue => Exited (Normal tt) s'
         end.

(** [verified<T>::operator T()]: [verify(assigned); return value;] *)
Definition verified_read {R Params} {T : ctype} (v : verified T)
  : M (process R Params) T :=
  verify (assigned v) ;; ret (value v).

(** *** Members of [mock_aux] *)

(** [mock_aux(std::string prototype)]: [m_count(0)],
    [m_prototype(trim(prototype, " "))]; [result], [m_params] and
    [func] are default-initialised. *)
Definition mock_aux_new (R : rtype) (Params : list ctype)
           (prototype : string) : mock_aux R Params :=
  MockAux
    (AuxData R Params
             (mock_aux_return_init R) (tuple_init Params)
             0%N (trim prototype " "))
    None.

Definition count {R Params} (a : mock_aux R Params) : N :=
  m_count (data a).

(** [m_count > 0] *)
Definition called {R Params} (a : mock_aux R Params) : bool :=
  (0 <? m_count (data a))%N.

Definition prototype {R Params} (a : mock_aux R Params) : string :=
  m_prototype (data a).

(** [*this = mock_aux(m_prototype);] *)
Definition reset {R Params} (a : mock_aux R Params) : mock_aux R Params :=
  mock_aux_new R Params (m_prototype (data a)).

(** [param<Number>()]: [std::get<Number - 1>(m_params)], a copy.
    [Number] ranges over [1..sizeof...(Params)]; any other position is
    rejected by the compiler. *)
Definition param {R Params} (Number : nat) (a : mock_aux R Params)
  : nth_param_base_t (Number - 1) Params :=
  get (Number - 1) Params (m_params (data a)).

(** [m_params = std::make_tuple(params...)]: every argument is
    copied, none is moved from. *)
Definition set_params {R Params} (params : tuple_params_t Params)
           (a : mock_aux R Params) : mock_aux R Params :=
  MockAux
    (AuxData R Params
             (result (data a)) params (m_count (data a))
             (m_prototype (data a)))
    (func a).

(** [aux.func = f], by the test. *)
Definition assign_func {R Params} (f : option (function R Params))
           (a : mock_aux R Params) : mock_aux R Params :=
  MockAux (data a) f.

(** [aux.result = other], by the test; only a binding of a non-[void]
    function has the member. *)
Definition assign_result {T : ctype} {Params} (other : T)
           (a : mock_aux (NonVoid T) Params)
  : mock_aux (NonVoid T) Params :=
  MockAux
    (AuxData (NonVoid T) Params
             (verified_assign other (result (data a)))
             (m_params (data a)) (m_count (data a))
             (m_prototype (data a)))
    (func a).

(** *** [mock_impl_base] and [mock_impl] *)

Definition on_aux {R Params}
           (f : mock_aux R Params -> mock_aux R Params)
           (s : process R Params) : process R Params :=
  Process (f (aux s)) (world s) (verify_log s).

(** [aux.func(std::forward<Params>(params)...)] *)
Definition call_func {R Params} (f : function R Params)
           (params : tuple_params_t Params)
  : M (process R Params) (returned R) :=
  fun s =>
    let r := f params (data (aux s)) (world s) in
    Exited (fst r) (Process (aux s) (snd r) (verify_log s)).

(** [mock_impl_base<void, TImpl>::impl]:
    [if (aux.func) aux.func(params...);] *)
Definition impl_base_void {Params} (params : tuple_params_t Params)
  : M (process Void Params) unit :=
  fun s =>
    match func (aux s) with
    | Some f => call_func f params s
    | None => ret tt s
    end.

(** [mock_impl_base<T, TImpl>::impl] for a non-[void] [T]:
    [if (aux.func) return aux.func(params...); return aux.result;] *)
Definition impl_base_nonvoid {T : ctype} {Params}
           (params : tuple_params_t Params)
  : M (process (NonVoid T) Params) T :=
  fun s =>
    match func (aux s) with
    | Some f => call_func f params s
    | None => verified_read (result (data (aux s))) s
    end.

(** The specialisation of [mock_impl_base] that the return type
    selects. *)
Definition impl_base {R Params}
  : tuple_params_t Params -> M (process R Params) (returned R) :=
  match R as R0
        return tuple_params_t Params ->
               M (process R0 Params) (returned R0) with
  | Void => impl_base_void
  | NonVoid T => impl_base_nonvoid
  end.

(** [mock_impl::impl]: the overload without parameters goes to the
    base at once; the variadic one stores the arguments first. *)
Definition impl {R Params}
  : tuple_params_t Params -> M (process R Params) (returned R) :=
  match Params as Ps
        return tuple_params_t Ps -> M (process R Ps) (returned R) with
  | [] => fun params => impl_base params
  | _ :: _ => fun params =>
                modify (on_aux (set_params params)) ;; impl_base params
  end.

(** [aux.m_count++] *)
Definition count_incr {R Params} (a : mock_aux R Params)
  : mock_aux R Params :=
  MockAux
    (AuxData R Params
             (result (data a)) (m_params (data a))
             (size_incr (m_count (data a)))
             (m_prototype (data a)))
    (func a).

(** [~mock_impl() { aux.m_count++; }] *)
Definition mock_impl_dtor {R Params}
  : process R Params -> process R Params :=
  on_aux count_incr.

(** The function that [JG_MOCK] defines:
    [return mock_impl<...>(aux).impl(p1, ..., pN);] *)
Definition mock_function {R Params} (params : tuple_params_t Params)
  : M (process R Params) (returned R) :=
  with_destructor (impl params) mock_impl_dtor.

End Engine.

(** The initialiser of the binding that [JG_MOCK] defines: the
    stringified macro arguments, concatenated as
    [#return_type " " #function_name "(" #__VA_ARGS__ ") " #suffix]. *)
Definition JG_MOCK_prototype
           (return_type function_name va_args suffix : string) : string :=
  (return_type ++ " " ++ function_name ++ "(" ++ va_args ++ ") " ++ suffix)
    %string.

(** ** A test driving the binding

    What a test does with one binding, one statement at a time: call the
    mock function, assign [func] or [result], [reset()], or run code
    that does not touch the binding.  An exception that leaves a call is
    caught by the test, which goes on; a terminated process does not. *)
Section Script.

Context {W exn : Type}.
Variable verify_error : exn.
Variable policy : verify_policy.

Inductive action (R : rtype) (Params : list ctype) : Type :=
| Call (params : tuple_params_t Params)
| AssignFunc (f : option (@function W exn R Params))
| AssignResult (other : returned R)
| Reset
| Other (g : W -> W).

Arguments Reset {R Params}.
Arguments Other {R Params} g.
Arguments Call {R Params} params.
Arguments AssignFunc {R Params} f.
Arguments AssignResult {R Params} other.

(** [aux.result = other] where the member exists; a [void] binding has
    none, and the statement does not compile. *)
Definition store_result {R Params}
  : returned R -> @mock_aux W exn R Params -> mock_aux R Params :=
  match R as R0
        return returned R0 -> mock_aux R0 Params -> mock_aux R0 Params with
  | Void => fun _ a => a
  | NonVoid T => fun other a => assign_result other a
  end.

Definition step {R Params} (a : action R Params)
           (s : @process W exn R Params) : option (process R Params) :=
  match a with
  | Call params =>
      match mock_function verify_error policy params s with
      | Aborted _ _ => None
      | Exited _ s' => Some s'
      end
  | AssignFunc f => Some (on_aux (assign_func f) s)
  | AssignResult other => Some (on_aux (store_result other) s)
  | Reset => Some (on_aux reset s)
  | Other g => Some (Process (aux s) (g (world s)) (verify_log s))
  end.

Fixpoint exec {R Params} (script : list (action R Params))
         (s : @process W exn R Params) : option (process R Params) :=
  match script with
  | [] => Some s
  | a :: script' =>
      match step a s with
      | None => None
      | Some s' => exec script' s'
      end
  end.

Definition is_call {R Params} (a : action R Params) : bool :=
  match a with Call _ => true | _ => false end.

Definition is_reset {R Params} (a : action R Params) : bool :=
  match a with Reset => true | _ => false end.

(** The number of calls in a script. *)
Definition calls {R Params} (script : list (action R Params)) : N :=
  N.of_nat (List.length (filter is_call script)).

(** The program state right after the binding has been constructed. *)
Definition start (R : rtype) (Params : list ctype) (prototype : string)
           (w : W) : @process W exn R Params :=
  Process (mock_aux_new R Params prototype) w [].

(** The states of a binding that a test can bring about. *)
Inductive reachable {R Params} : @process W exn R Params -> Prop :=
| reachable_start : forall prototype w,
    reachable (start R Params prototype w)
| reachable_step : forall s a s',
    reachable s -> step a s = Some s' -> reachable s'.

End Script.

Arguments Reset {W exn R Params}.
Arguments Other {W exn R Params} g.
Arguments Call {W exn R Params} params.
Arguments AssignFunc {W exn R Params} f.
Arguments AssignResult {W exn R Params} other.

(** ** Invariants of the binding *)
Section Invariants.

Context {W exn : Type}.

Local Abbreviation mock_aux := (@mock_aux W exn).

(** An unassigned [verified] still holds the value it was initialised
    with. *)
Definition slot_untouched {R : rtype} : mock_aux_return R -> Prop :=
  match R as R0 return mock_aux_return R0 -> Prop with
  | Void => fun _ => True
  | NonVoid T => fun v => assigned v = false -> value v = value_init T
  end.

Definition invariant {R Params} (a : mock_aux R Params) : Prop :=
  trim (m_prototype (data a)) " " = m_prototype (data a)
  /\ slot_untouched (result (data a))
  /\ (m_count (data a) < SIZE_MOD)%N.

(** A binding as its constructor leaves it; [reset()] leaves it so too. *)
Definition pristine {R Params} (a : mock_aux R Params) : Prop :=
  exists prototype, a = mock_aux_new R Params prototype.

End Invariants.

(** ** Concrete signatures, for the examples *)

Definition int_t : ctype := CType 0%Z.
Definition string_t : ctype := CType EmptyString.

(** In the examples the test state is a list of integers that callables
    append to, and an exception is its message. *)
Definition tworld : Type := list Z.
Definition texn : Type := string.
Definition verify_failed : texn := "jg::verify failed"%string.

Definition foo_args (p1 : Z) : tuple_params_t [int_t] := (p1, tt).

(** The binding of [JG_MOCK(,,, int, foo, int)], just constructed. *)
Definition foo_start : @process tworld texn (NonVoid int_t) [int_t] :=
  start (NonVoid int_t) [int_t] (JG_MOCK_prototype "int" "foo" "int" "") [].

(** [[&](int p1) { seen.push_back(p1); return 2 * p1; }] *)
Definition doubling : @function tworld texn (NonVoid int_t) [int_t] :=
  fun params _ w => (Normal (2 * fst params)%Z, fst params :: w).

(** [[](int) -> int { throw "boom"; }] *)
Definition throwing : @function tworld texn (NonVoid int_t) [int_t] :=
  fun _ _ w => (Raised _ "boom"%string, w).

(** [[&](int) { seen.push_back(foo_.param<1>());
               seen.push_back(foo_.count()); return 0; }] *)
Definition spying : @function tworld texn (NonVoid int_t) [int_t] :=
  fun _ d w => (Normal 0%Z, Z.of_N (m_count d) :: fst (m_params d) :: w).

(** [foo_]: the type of the statements of a test on this binding. *)
Definition foo_action : Type :=
  @action tworld texn (NonVoid int_t) [int_t].

Definition foo_result (other : Z) : foo_action :=
  AssignResult (other : returned (NonVoid int_t)).

(** [foo_.func = throwing;] *)
Definition foo_throwing : @process tworld texn (NonVoid int_t) [int_t] :=
  on_aux (assign_func (Some throwing)) foo_start.

(** [foo_.result = 7;] *)
Definition foo_result_7 : @process tworld texn (NonVoid int_t) [int_t] :=
  on_aux (assign_result (7%Z : int_t)) foo_start.

(** [foo_.func = doubling; foo_.result = 7;] *)
Definition foo_func_and_result
  : @process tworld texn (NonVoid int_t) [int_t] :=
  on_aux (assign_result (7%Z : int_t))
         (on_aux (assign_func (Some doubling)) foo_start).

(** Statements that neither call [foo] nor reset [foo_]. *)
Definition configuring : list foo_action :=
  [foo_result 3; AssignFunc (Some doubling); Other (cons 1%Z)].

(** Statements that do not call [foo]. *)
Definition not_calling : list foo_action :=
  [AssignFunc (Some doubling); foo_result 4; Reset; Other (cons 1%Z)].

(** Three calls of [foo], and no [reset()]. *)
Definition three_calls : list foo_action :=
  [AssignFunc (Some doubling); Call (foo_args 1); foo_result 9;
   Call (foo_args 2); AssignFunc None; Call (foo_args 3)].

(** The example of the specification for [reset()]: three calls with a
    callable set. *)
Definition three_hooked_calls : list foo_action :=
  [AssignFunc (Some doubling);
   Call (foo_args 1); Call (foo_args 2); Call (foo_args 3)].


(** [JG_MOCK(,,, void, note, int, const std::string&)], called once. *)
Definition note_called
  : option (@process tworld texn Void [int_t; string_t]) :=
  exec verify_failed verify_abort
       [Call ((4%Z, ("four"%string, tt)) : tuple_params_t [int_t; string_t])]
       (start Void [int_t; string_t]
              (JG_MOCK_prototype "void" "note" "int, const std::string&" "")
              []).

(** [void f()], called [2^64] times. *)
Definition f_start : @process tworld texn Void [] :=
  start Void [] (JG_MOCK_prototype "void" "f" "" "") [].

Definition f_many_calls : list (@action tworld texn Void []) :=
  repeat (Call (tt : tuple_params_t [])) (N.to_nat SIZE_MOD).

(** ** More about scripts *)
Section ScriptParts.

Context {W exn : Type}.

Definition is_assign_result {R Params} (a : @action W exn R Params)
  : bool :=
  match a with AssignResult _ => true | _ => false end.

Definition is_assign_func {R Params} (a : @action W exn R Params)
  : bool :=
  match a with AssignFunc _ => true | _ => false end.

End ScriptParts.

(** ** [verified<T>], the specialisation for reference [T]

    The slot holds a pointer to the object that the assigned reference
    denotes.  Objects live in a memory, at addresses; [nullptr] is
    [None]. *)
Definition address : Type := N.

(** The objects of type [T] that are alive, by address. *)
Definition memory (T : ctype) : Type := address -> option T.

(** What evaluating [*p] gives: the object, or undefined behaviour. *)
Inductive lvalue (T : ctype) : Type :=
| Object (x : T)
| Undefined.

(** [*p]: defined when [p] points to a live object. *)
Definition deref {T : ctype} (m : memory T) (p : option address)
  : lvalue T :=
  match p with
  | None => Undefined T
  | Some a =>
      match m a with
      | Some x => Object T x
      | None => Undefined T
      end
  end.

Record verified_ref (T : ctype) : Type :=
  VerifiedRef { ref_value : option address; ref_assigned : bool }.

(** [std::remove_reference_t<T>* value = nullptr; bool assigned = false;] *)
Definition verified_ref_init (T : ctype) : verified_ref T :=
  VerifiedRef T None false.

(** [verified& operator=(T other)]: [value = &other; assigned = true;],
    where [other] is a reference to the object at address [other]. *)
Definition verified_ref_assign {T : ctype} (other : address)
           (v : verified_ref T) : verified_ref T :=
  VerifiedRef T (Some other) true.

(** [operator T()]: [verify(assigned); return *value;], in the memory
    [m] of the moment. *)
Definition verified_ref_read {W exn : Type}
           (verify_error : exn) (policy : verify_policy)
           {R Params} {T : ctype} (m : memory T) (v : verified_ref T)
  : M (@process W exn R Params) (lvalue T) :=
  bind (verify verify_error policy (ref_assigned v))
       (fun _ => ret (deref m (ref_value v))).

(** ** The macros of [jg_mock.h]

    The preprocessor works on tokens.  A macro argument is a token
    sequence, here one [pp_token]; a variadic argument list is a list of
    them.  An expansion that the preprocessor or the compiler rejects
    (too few arguments for a macro, a pasted name that is no macro) is
    [None]. *)
Inductive pp_token : Type :=
| Number (n : nat)
| Text (s : string).

(** [#define _JG_CONCAT3(x, y, z) x ## y ## z] *)
Definition _JG_CONCAT3 (x y z : string) : string := (x ++ y ++ z)%string.

(** The name of the binding that [JG_MOCK] and [JG_MOCK_REF] declare:
    [_JG_CONCAT3(function_name, overload_suffix, _)]. *)
Definition aux_name (function_name overload_suffix : string) : string :=
  _JG_CONCAT3 function_name overload_suffix "_"%string.

(** [#define _JG_VA_COUNT_2(x0,x1,x2,x3,x4,x5,x6,x7,x8,x9,x10,N,...) N]:
    the twelfth argument. *)
Definition _JG_VA_COUNT_2 (args : list pp_token) : option pp_token :=
  nth_error args 11.

(** The tail [10,9,8,7,6,5,4,3,2,1,0] of both [_JG_VA_COUNT_1]. *)
Definition countdown : list pp_token :=
  [Number 10; Number 9; Number 8; Number 7; Number 6; Number 5;
   Number 4; Number 3; Number 2; Number 1; Number 0].

(** What [__VA_ARGS__] contributes after a comma, as in
    [unused, __VA_ARGS__] and [0, ## __VA_ARGS__].  With no variadic
    argument, a preprocessor that removes the comma (the GNU [, ##]
    extension in GNU mode, the traditional preprocessor of MSVC)
    leaves nothing; a conforming one keeps the comma, and what follows
    it is one empty argument. *)
Definition after_comma (comma_elided : bool) (va_args : list pp_token)
  : list pp_token :=
  match va_args with
  | [] => if comma_elided then [] else [Text EmptyString]
  | _ :: _ => va_args
  end.

(** [#define _JG_AUGMENTER(...) unused, __VA_ARGS__] *)
Definition _JG_AUGMENTER (comma_elided : bool) (va_args : list pp_token)
  : list pp_token :=
  Text "unused"%string :: after_comma comma_elided va_args.

(** [_JG_VA_COUNT_1], as defined under [_MSC_VER]
    ([_JG_VA_COUNT_2(__VA_ARGS__,10,...,0)]) and otherwise
    ([_JG_VA_COUNT_2(0, ## __VA_ARGS__,10,...,0)]). *)
Definition _JG_VA_COUNT_1 (_MSC_VER comma_elided : bool)
           (va_args : list pp_token) : option pp_token :=
  if _MSC_VER then _JG_VA_COUNT_2 (va_args ++ countdown)
  else _JG_VA_COUNT_2
         (Number 0 :: after_comma comma_elided va_args ++ countdown).

(** [_JG_VA_COUNT]: under [_MSC_VER] the arguments go through
    [_JG_AUGMENTER] first. *)
Definition _JG_VA_COUNT (_MSC_VER comma_elided : bool)
           (va_args : list pp_token) : option pp_token :=
  if _MSC_VER
  then _JG_VA_COUNT_1 true comma_elided (_JG_AUGMENTER comma_elided va_args)
  else _JG_VA_COUNT_1 false comma_elided va_args.

(** The arguments of the invocation [m(__VA_ARGS__)] of the macro that
    the count selects: an empty pair of parentheses holds no argument
    for a macro without parameters, and one empty argument for a macro
    with one parameter. *)
Definition invocation_args (n : pp_token) (va_args : list string)
  : list string :=
  match va_args, n with
  | [], Number 1 => [EmptyString]
  | _, _ => va_args
  end.

(** [#define _JG_MOCK_FUNC_PARAMS_DECL_0() ] *)
Definition _JG_MOCK_FUNC_PARAMS_DECL_0 (args : list string)
  : option (list (string * string)) :=
  match args with
  | [] =>
      Some []
  | _ => None
  end.

(** [#define _JG_MOCK_FUNC_PARAMS_DECL_1(T1) T1 p1] *)
Definition _JG_MOCK_FUNC_PARAMS_DECL_1 (args : list string)
  : option (list (string * string)) :=
  match args with
  | [T1] =>
      Some [(T1, "p1")]%string
  | _ => None
  end.

(** [#define _JG_MOCK_FUNC_PARAMS_DECL_2(T1, T2) T1 p1, T2 p2] *)
Definition _JG_MOCK_FUNC_PARAMS_DECL_2 (args : list string)
  : option (list (string * string)) :=
  match args with
  | [T1; T2] =>
      Some [(T1, "p1"); (T2, "p2")]%string
  | _ => None
  end.

(** [#define _JG_MOCK_FUNC_PARAMS_DECL_3(T1, T2, T3) T1 p1, T2 p2, T3 p3] *)
Definition _JG_MOCK_FUNC_PARAMS_DECL_3 (args : list string)
  : option (list (string * string)) :=
  match args with
  | [T1; T2; T3] =>
      Some [(T1, "p1"); (T2, "p2"); (T3, "p3")]%string
  | _ => None
  end.

(** [#define _JG_MOCK_FUNC_PARAMS_DECL_4(T1, T2, T3, T4) T1 p1, T2 p2, T3
    p3, T4 p4] *)
Definition _JG_MOCK_FUNC_PARAMS_DECL_4 (args : list string)
  : option (list (string * string)) :=
  match args with
  | [T1; T2; T3; T4] =>
      Some [(T1, "p1"); (T2, "p2"); (T3, "p3"); (T4, "p4")]%string
  | _ => None
  end.

(** [#define _JG_MOCK_FUNC_PARAMS_DECL_5(T1, T2, T3, T4, T5) T1 p1, T2 p2,
    T3 p3, T4 p4, T5 p5] *)
Definition _JG_MOCK_FUNC_PARAMS_DECL_5 (args : list string)
  : option (list (string * string)) :=
  match args with
  | [T1; T2; T3; T4; T5] =>
      Some [(T1, "p1"); (T2, "p2"); (T3, "p3"); (T4, "p4"); (T5, "p5")]%string
  | _ => None
  end.

(** [#define _JG_MOCK_FUNC_PARAMS_DECL_6(T1, T2, T3, T4, T5, T6) T1 p1, T2
    p2, T3 p3, T4 p4, T5 p5, T6 p6] *)
Definition _JG_MOCK_FUNC_PARAMS_DECL_6 (args : list string)
  : option (list (string * string)) :=
  match args with
  | [T1; T2; T3; T4; T5; T6] =>
      Some [(T1, "p1"); (T2, "p2"); (T3, "p3"); (T4, "p4"); (T5, "p5");
            (T6, "p6")]%string
  | _ => None
  end.

(** [#define _JG_MOCK_FUNC_PARAMS_DECL_7(T1, T2, T3, T4, T5, T6, T7) T1 p1,
    T2 p2, T3 p3, T4 p4, T5 p5, T6 p6, T7 p7] *)
Definition _JG_MOCK_FUNC_PARAMS_DECL_7 (args : list string)
  : option (list (string * string)) :=
  match args with
  | [T1; T2; T3; T4; T5; T6; T7] =>
      Some [(T1, "p1"); (T2, "p2"); (T3, "p3"); (T4, "p4"); (T5, "p5");
            (T6, "p6"); (T7, "p7")]%string
  | _ => None
  end.

(** [#define _JG_MOCK_FUNC_PARAMS_DECL_8(T1, T2, T3, T4, T5, T6, T7, T8) T1
    p1, T2 p2, T3 p3, T4 p4, T5 p5, T6 p6, T7 p7, T8 p8] *)
Definition _JG_MOCK_FUNC_PARAMS_DECL_8 (args : list string)
  : option (list (string * string)) :=
  match args with
  | [T1; T2; T3; T4; T5; T6; T7; T8] =>
      Some [(T1, "p1"); (T2, "p2"); (T3, "p3"); (T4, "p4"); (T5, "p5");
            (T6, "p6"); (T7, "p7"); (T8, "p8")]%string
  | _ => None
  end.

(** [#define _JG_MOCK_FUNC_PARAMS_DECL_9(T1, T2, T3, T4, T5, T6, T7, T8,
    T9) T1 p1, T2 p2, T3 p3, T4 p4, T5 p5, T6 p6, T7 p7, T8 p8, T9 p9] *)
Definition _JG_MOCK_FUNC_PARAMS_DECL_9 (args : list string)
  : option (list (string * string)) :=
  match args with
  | [T1; T2; T3; T4; T5; T6; T7; T8; T9] =>
      Some [(T1, "p1"); (T2, "p2"); (T3, "p3"); (T4, "p4"); (T5, "p5");
            (T6, "p6"); (T7, "p7"); (T8, "p8"); (T9, "p9")]%string
  | _ => None
  end.

(** [#define _JG_MOCK_FUNC_PARAMS_DECL_10(T1, T2, T3, T4, T5, T6, T7, T8,
    T9, T10) T1 p1, T2 p2, T3 p3, T4 p4, T5 p5, T6 p6, T7 p7, T8 p8,
    T9 p9, T10 p10] *)
Definition _JG_MOCK_FUNC_PARAMS_DECL_10 (args : list string)
  : option (list (string * string)) :=
  match args with
  | [T1; T2; T3; T4; T5; T6; T7; T8; T9; T10] =>
      Some [(T1, "p1"); (T2, "p2"); (T3, "p3"); (T4, "p4"); (T5, "p5");
            (T6, "p6"); (T7, "p7"); (T8, "p8"); (T9, "p9");
            (T10, "p10")]%string
  | _ => None
  end.

(** [#define _JG_MOCK_FUNC_PARAMS_CALL_0() ] *)
Definition _JG_MOCK_FUNC_PARAMS_CALL_0 (args : list string)
  : option (list string) :=
  match args with
  | [] => Some []
  | _ => None
  end.

(** [#define _JG_MOCK_FUNC_PARAMS_CALL_1(T1) p1] *)
Definition _JG_MOCK_FUNC_PARAMS_CALL_1 (args : list string)
  : option (list string) :=
  match args with
  | [_] => Some ["p1"]%string
  | _ => None
  end.

(** [#define _JG_MOCK_FUNC_PARAMS_CALL_2(T1, T2) p1, p2] *)
Definition _JG_MOCK_FUNC_PARAMS_CALL_2 (args : list string)
  : option (list string) :=
  match args with
  | [_; _] => Some ["p1"; "p2"]%string
  | _ => None
  end.

(** [#define _JG_MOCK_FUNC_PARAMS_CALL_3(T1, T2, T3) p1, p2, p3] *)
Definition _JG_MOCK_FUNC_PARAMS_CALL_3 (args : list string)
  : option (list string) :=
  match args with
  | [_; _; _] => Some ["p1"; "p2"; "p3"]%string
  | _ => None
  end.

(** [#define _JG_MOCK_FUNC_PARAMS_CALL_4(T1, T2, T3, T4) p1, p2, p3, p4] *)
Definition _JG_MOCK_FUNC_PARAMS_CALL_4 (args : list string)
  : option (list string) :=
  match args with
  | [_; _; _; _] => Some ["p1"; "p2"; "p3"; "p4"]%string
  | _ => None
  end.

(** [#define _JG_MOCK_FUNC_PARAMS_CALL_5(T1, T2, T3, T4, T5) p1, p2, p3,
    p4, p5] *)
Definition _JG_MOCK_FUNC_PARAMS_CALL_5 (args : list string)
  : option (list string) :=
  match args with
  | [_; _; _; _; _] => Some ["p1"; "p2"; "p3"; "p4"; "p5"]%string
  | _ => None
  end.

(** [#define _JG_MOCK_FUNC_PARAMS_CALL_6(T1, T2, T3, T4, T5, T6) p1, p2,
    p3, p4, p5, p6] *)
Definition _JG_MOCK_FUNC_PARAMS_CALL_6 (args : list string)
  : option (list string) :=
  match args with
  | [_; _; _; _; _; _] => Some ["p1"; "p2"; "p3"; "p4"; "p5"; "p6"]%string
  | _ => None
  end.

(** [#define _JG_MOCK_FUNC_PARAMS_CALL_7(T1, T2, T3, T4, T5, T6, T7) p1,
    p2, p3, p4, p5, p6, p7] *)
Definition _JG_MOCK_FUNC_PARAMS_CALL_7 (args : list string)
  : option (list string) :=
  match args with
  | [_; _; _; _; _; _; _] =>
      Some ["p1"; "p2"; "p3"; "p4"; "p5"; "p6"; "p7"]%string
  | _ => None
  end.

(** [#define _JG_MOCK_FUNC_PARAMS_CALL_8(T1, T2, T3, T4, T5, T6, T7, T8)
    p1, p2, p3, p4, p5, p6, p7, p8] *)
Definition _JG_MOCK_FUNC_PARAMS_CALL_8 (args : list string)
  : option (list string) :=
  match args with
  | [_; _; _; _; _; _; _; _] =>
      Some ["p1"; "p2"; "p3"; "p4"; "p5"; "p6"; "p7"; "p8"]%string
  | _ => None
  end.

(** [#define _JG_MOCK_FUNC_PARAMS_CALL_9(T1, T2, T3, T4, T5, T6, T7, T8,
    T9) p1, p2, p3, p4, p5, p6, p7, p8, p9] *)
Definition _JG_MOCK_FUNC_PARAMS_CALL_9 (args : list string)
  : option (list string) :=
  match args with
  | [_; _; _; _; _; _; _; _; _] =>
      Some ["p1"; "p2"; "p3"; "p4"; "p5"; "p6"; "p7"; "p8"; "p9"]%string
  | _ => None
  end.

(** [#define _JG_MOCK_FUNC_PARAMS_CALL_10(T1, T2, T3, T4, T5, T6, T7, T8,
    T9, T10) p1, p2, p3, p4, p5, p6, p7, p8, p9, p10] *)
Definition _JG_MOCK_FUNC_PARAMS_CALL_10 (args : list string)
  : option (list string) :=
  match args with
  | [_; _; _; _; _; _; _; _; _; _] =>
      Some ["p1"; "p2"; "p3"; "p4"; "p5"; "p6"; "p7"; "p8"; "p9"; "p10"]%string
  | _ => None
  end.

(** [_JG_CONCAT(_JG_MOCK_FUNC_PARAMS_DECL_, n)], applied to the
    arguments; only the eleven names above are macros. *)
Definition _JG_MOCK_FUNC_PARAMS_DECL_n (n : pp_token) (args : list string)
  : option (list (string * string)) :=
  match n with
  | Number 0 => _JG_MOCK_FUNC_PARAMS_DECL_0 args
  | Number 1 => _JG_MOCK_FUNC_PARAMS_DECL_1 args
  | Number 2 => _JG_MOCK_FUNC_PARAMS_DECL_2 args
  | Number 3 => _JG_MOCK_FUNC_PARAMS_DECL_3 args
  | Number 4 => _JG_MOCK_FUNC_PARAMS_DECL_4 args
  | Number 5 => _JG_MOCK_FUNC_PARAMS_DECL_5 args
  | Number 6 => _JG_MOCK_FUNC_PARAMS_DECL_6 args
  | Number 7 => _JG_MOCK_FUNC_PARAMS_DECL_7 args
  | Number 8 => _JG_MOCK_FUNC_PARAMS_DECL_8 args
  | Number 9 => _JG_MOCK_FUNC_PARAMS_DECL_9 args
  | Number 10 => _JG_MOCK_FUNC_PARAMS_DECL_10 args
  | _ => None
  end.

Definition _JG_MOCK_FUNC_PARAMS_CALL_n (n : pp_token) (args : list string)
  : option (list string) :=
  match n with
  | Number 0 => _JG_MOCK_FUNC_PARAMS_CALL_0 args
  | Number 1 => _JG_MOCK_FUNC_PARAMS_CALL_1 args
  | Number 2 => _JG_MOCK_FUNC_PARAMS_CALL_2 args
  | Number 3 => _JG_MOCK_FUNC_PARAMS_CALL_3 args
  | Number 4 => _JG_MOCK_FUNC_PARAMS_CALL_4 args
  | Number 5 => _JG_MOCK_FUNC_PARAMS_CALL_5 args
  | Number 6 => _JG_MOCK_FUNC_PARAMS_CALL_6 args
  | Number 7 => _JG_MOCK_FUNC_PARAMS_CALL_7 args
  | Number 8 => _JG_MOCK_FUNC_PARAMS_CALL_8 args
  | Number 9 => _JG_MOCK_FUNC_PARAMS_CALL_9 args
  | Number 10 => _JG_MOCK_FUNC_PARAMS_CALL_10 args
  | _ => None
  end.

(** [_JG_MOCK_FUNC_PARAMS_DECL(...)]: the parameter declarations of the
    function that [JG_MOCK] defines, as pairs of a type and a name. *)
Definition _JG_MOCK_FUNC_PARAMS_DECL (_MSC_VER comma_elided : bool)
           (va_args : list string) : option (list (string * string)) :=
  match _JG_VA_COUNT _MSC_VER comma_elided (map Text va_args) with
  | Some n => _JG_MOCK_FUNC_PARAMS_DECL_n n (invocation_args n va_args)
  | None => None
  end.

(** [_JG_MOCK_FUNC_PARAMS_CALL(...)]: the arguments that the function
    passes to [mock_impl::impl]. *)
Definition _JG_MOCK_FUNC_PARAMS_CALL (_MSC_VER comma_elided : bool)
           (va_args : list string) : option (list string) :=
  match _JG_VA_COUNT _MSC_VER comma_elided (map Text va_args) with
  | Some n => _JG_MOCK_FUNC_PARAMS_CALL_n n (invocation_args n va_args)
  | None => None
  end.

(** The names [p1 .. p10] of the tables. *)
Definition param_names : list string :=
  ["p1"; "p2"; "p3"; "p4"; "p5"; "p6"; "p7"; "p8"; "p9"; "p10"]%string.

(** ** The engine, for callables of any kind

    [std::function<T(Params...)>] holds any callable: one that has
    captured the binding by reference can call the mock function again,
    assign [result] or [func], or [reset()] the binding while the call
    it serves is under way.  Here a callable is a value of a type
    [callable], and calling it ([invoke]) is any action at all on the
    program state, the binding included.  [function] above is the
    special case of the callables that leave the binding alone. *)
Module General.

Section Engine.

Context {W exn : Type}.
Variable callable : rtype -> list ctype -> Type.

Record mock_aux (R : rtype) (Params : list ctype) : Type :=
  MockAux {
      data : aux_data R Params;
      func : option (callable R Params)
    }.

Record process (R : rtype) (Params : list ctype) : Type :=
  Process {
      aux : mock_aux R Params;
      world : W;
      verify_log : list bool
    }.

(** [std::function::operator()] *)
Variable invoke :
  forall R Params, callable R Params -> tuple_params_t Params ->
                   @M exn (process R Params) (returned R).

Variable verify_error : exn.
Variable policy : verify_policy.

Definition log_verify {R Params} (condition : bool)
           (s : process R Params) : process R Params :=
  Process (aux s) (world s) (condition :: verify_log s).

(** Modelled from the spec: [jg::verify], as above. *)
Definition verify {R Params} (condition : bool)
  : M (process R Params) unit :=
  fun s =>
    let s' := log_verify condition s in
    if condition then Exited (Normal tt) s'
    else match policy with
         | verify_abort => Aborted unit s'
         | verify_throw => Exited (Raised unit verify_error) s'
         | verify_continue => Exited (Normal tt) s'
         end.

(** [verified<T>::operator T()] *)
Definition verified_read {R Params} {T : ctype} (v : verified T)
  : M (process R Params) T :=
  bind (verify (assigned v)) (fun _ => ret (value v)).

Definition mock_aux_new (R : rtype) (Params : list ctype)
           (prototype : string) : mock_aux R Params :=
  MockAux
    (AuxData R Params
             (mock_aux_return_init R) (tuple_init Params)
             0%N (trim prototype " "))
    None.

Definition count {R Params} (a : mock_aux R Params) : N :=
  m_count (data a).

Definition reset {R Params} (a : mock_aux R Params) : mock_aux R Params :=
  mock_aux_new R Params (m_prototype (data a)).

Definition param {R Params} (Number : nat) (a : mock_aux R Params)
  : nth_param_base_t (Number - 1) Params :=
  get (Number - 1) Params (m_params (data a)).

Definition set_params {R Params} (params : tuple_params_t Params)
           (a : mock_aux R Params) : mock_aux R Params :=
  MockAux
    (AuxData R Params
             (result (data a)) params (m_count (data a))
             (m_prototype (data a)))
    (func a).

Definition assign_func {R Params} (f : option (callable R Params))
           (a : mock_aux R Params) : mock_aux R Params :=
  MockAux (data a) f.

Definition assign_result {T : ctype} {Params} (other : T)
           (a : mock_aux (NonVoid T) Params)
  : mock_aux (NonVoid T) Params :=
  MockAux
    (AuxData (NonVoid T) Params
             (verified_assign other (result (data a)))
             (m_params (data a)) (m_count (data a))
             (m_prototype (data a)))
    (func a).

Definition on_aux {R Params}
           (f : mock_aux R Params -> mock_aux R Params)
           (s : process R Params) : process R Params :=
  Process (f (aux s)) (world s) (verify_log s).

(** [mock_impl_base<void, TImpl>::impl] *)
Definition impl_base_void {Params} (params : tuple_params_t Params)
  : M (process Void Params) unit :=
  fun s =>
    match func (aux s) with
    | Some f => invoke f params s
    | None => ret tt s
    end.

(** [mock_impl_base<T, TImpl>::impl] for a non-[void] [T] *)
Definition impl_base_nonvoid {T : ctype} {Params}
           (params : tuple_params_t Params)
  : M (process (NonVoid T) Params) T :=
  fun s =>
    match func (aux s) with
    | Some f => invoke f params s
    | None => verified_read (result (data (aux s))) s
    end.

Definition impl_base {R Params}
  : tuple_params_t Params -> M (process R Params) (returned R) :=
  match R as R0
        return tuple_params_t Params ->
               M (process R0 Params) (returned R0) with
  | Void => impl_base_void
  | NonVoid T => impl_base_nonvoid
  end.

(** [mock_impl::impl], both overloads *)
Definition impl {R Params}
  : tuple_params_t Params -> M (process R Params) (returned R) :=
  match Params as Ps
        return tuple_params_t Ps -> M (process R Ps) (returned R) with
  | [] => fun params => impl_base params
  | _ :: _ => fun params =>
                bind (modify (on_aux (set_params params)))
                     (fun _ => impl_base params)
  end.

(** [aux.m_count++] *)
Definition count_incr {R Params} (a : mock_aux R Params)
  : mock_aux R Params :=
  MockAux
    (AuxData R Params
             (result (data a)) (m_params (data a))
             (size_incr (m_count (data a)))
             (m_prototype (data a)))
    (func a).

(** [~mock_impl() { aux.m_count++; }] *)
Definition mock_impl_dtor {R Params}
  : process R Params -> process R Params :=
  on_aux count_incr.

(** The function that [JG_MOCK] defines. *)
Definition mock_function {R Params} (params : tuple_params_t Params)
  : M (process R Params) (returned R) :=
  with_destructor (impl params) mock_impl_dtor.

(** The state that the outcome of a call is resolved in: the arguments
    of the call are in the capture store. *)
Definition captured {R Params} (params : tuple_params_t Params)
           (s : process R Params) : process R Params :=
  on_aux (set_params params) s.

End Engine.

(** *** A test driving the binding, as above *)
Section Script.

Context {W exn : Type}.
Variable callable : rtype -> list ctype -> Type.
Variable invoke :
  forall R Params, callable R Params -> tuple_params_t Params ->
                   @M exn (@process W callable R Params) (returned R).
Variable verify_error : exn.
Variable policy : verify_policy.

Inductive action (R : rtype) (Params : list ctype) : Type :=
| Call (params : tuple_params_t Params)
| AssignFunc (f : option (callable R Params))
| AssignResult (other : returned R)
| Reset
| Other (g : W -> W).

Arguments Call {R Params} params.
Arguments AssignFunc {R Params} f.
Arguments AssignResult {R Params} other.
Arguments Reset {R Params}.
Arguments Other {R Params} g.

Definition store_result {R Params}
  : returned R -> @mock_aux callable R Params -> mock_aux callable R Params :=
  match R as R0
        return returned R0 -> mock_aux callable R0 Params ->
               mock_aux callable R0 Params with
  | Void => fun _ a => a
  | NonVoid T => fun other a => assign_result other a
  end.

Definition step {R Params} (a : action R Params)
           (s : @process W callable R Params)
  : option (process callable R Params) :=
  match a with
  | Call params =>
      match mock_function invoke verify_error policy params s with
      | Aborted _ _ => None
      | Exited _ s' => Some s'
      end
  | AssignFunc f => Some (on_aux (assign_func f) s)
  | AssignResult other => Some (on_aux (store_result other) s)
  | Reset => Some (on_aux (@reset callable R Params) s)
  | Other g => Some (Process (aux s) (g (world s)) (verify_log s))
  end.

Fixpoint exec {R Params} (script : list (action R Params))
         (s : @process W callable R Params)
  : option (process callable R Params) :=
  match script with
  | [] => Some s
  | a :: script' =>
      match step a s with
      | None => None
      | Some s' => exec script' s'
      end
  end.

(** A statement that leaves the capture store alone: neither a call nor
    [reset()]. *)
Definition keeps_params {R Params} (a : action R Params) : bool :=
  match a with
  | Call _ | Reset => false
  | _ => true
  end.

End Script.

Arguments Call {W callable R Params} params.
Arguments AssignFunc {W callable R Params} f.
Arguments AssignResult {W callable R Params} other.
Arguments Reset {W callable R Params}.
Arguments Other {W callable R Params} g.

End General.

(** *** The engine above, inside the general one

    A [function] is a callable that leaves the binding alone. *)
Section Restricted.

Context {W exn : Type}.

Definition to_general {R Params} (s : @process W exn R Params)
  : @General.process W (@function W exn) R Params :=
  General.Process
    (General.MockAux (@function W exn) (data (aux s)) (func (aux s)))
    (world s) (verify_log s).

Definition invoke_function (R : rtype) (Params : list ctype)
           (f : @function W exn R Params) (params : tuple_params_t Params)
  : @M exn (@General.process W (@function W exn) R Params) (returned R) :=
  fun s =>
    let r := f params (General.data (General.aux s)) (General.world s) in
    Exited (fst r)
           (General.Process (General.aux s) (snd r) (General.verify_log s)).

Definition map_state {S S' A : Type} (f : S -> S') (r : @run exn S A)
  : @run exn S' A :=
  match r with
  | Aborted _ s => Aborted A (f s)
  | Exited c s => Exited c (f s)
  end.

End Restricted.

(** *** Callables for the examples *)

(** [ReturnDefault]: [return T{};].  [ResetBinding]:
    [foo_.reset(); return T{};].  [Reenter]:
    [foo_.func = return_default; return foo(T1{}, ..., TN{});]. *)
Inductive code : Type :=
| ReturnDefault
| ResetBinding
| Reenter.

Definition any_code (R : rtype) (Params : list ctype) : Type := code.

Definition default_return (R : rtype) : returned R :=
  match R with
  | Void => tt
  | NonVoid T => value_init T
  end.

(** The callables that do not call the mock function. *)
Definition invoke_simple (R : rtype) (Params : list ctype)
           (h : any_code R Params) (params : tuple_params_t Params)
  : @M texn (@General.process tworld any_code R Params) (returned R) :=
  fun s =>
    match h with
    | ResetBinding =>
        Exited (Normal (default_return R))
               (General.on_aux (@General.reset any_code R Params) s)
    | _ => Exited (Normal (default_return R)) s
    end.

Definition invoke_code (policy : verify_policy)
           (R : rtype) (Params : list ctype)
           (h : any_code R Params) (params : tuple_params_t Params)
  : @M texn (@General.process tworld any_code R Params) (returned R) :=
  fun s =>
    match h with
    | Reenter =>
        General.mock_function
          invoke_simple verify_failed policy (tuple_init Params)
          (General.on_aux (General.assign_func (Some ReturnDefault)) s)
    | _ => invoke_simple h params s
    end.

(** The binding of [JG_MOCK(,,, int, foo, int)], with [func = h]. *)
Definition gfoo (h : option code)
  : @General.process tworld any_code (NonVoid int_t) [int_t] :=
  General.Process
    (General.assign_func
       h (General.mock_aux_new any_code (NonVoid int_t) [int_t]
                               (JG_MOCK_prototype "int" "foo" "int" "")))
    [] [].

(** [foo_.func = nullptr;] and code that does not touch [foo_]. *)
Definition gconfiguring
  : list (@General.action tworld any_code (NonVoid int_t) [int_t]) :=
  [General.AssignFunc None; General.Other (cons 1%Z)].

(** [foo_] after [foo(5)] with [func = return_default], and after
    [gconfiguring] then. *)
Definition gfoo_called
  : @General.process tworld any_code (NonVoid int_t) [int_t] :=
  General.Process
    (General.MockAux
       any_code
       (AuxData (NonVoid int_t) [int_t] (verified_init int_t)
                (foo_args 5) 1 "int foo(int)")
       (Some ReturnDefault))
    [] [].

Definition gfoo_configured
  : @General.process tworld any_code (NonVoid int_t) [int_t] :=
  General.Process
    (General.MockAux
       any_code
       (AuxData (NonVoid int_t) [int_t] (verified_init int_t)
                (foo_args 5) 1 "int foo(int)")
       None)
    [1%Z] [].

(** ** More examples *)

(** [foo_.result = 7;], then a callable comes and goes. *)
Definition hooked_then_cleared : list foo_action :=
  [AssignFunc (Some doubling); Call (foo_args 1);
   AssignFunc None; Other (cons 1%Z)].

(** A memory with one [int], [x], at address [a]. *)
Definition one_int (a : address) (x : Z) : memory int_t :=
  fun b => if N.eqb a b then Some x else None.

(** The parameter types of
    [JG_MOCK(,,, void, note, int, const std::string&)]. *)
Definition note_types : list string :=
  ["int"; "const std::string&"]%string.

(** * Properties *)

(** ** Trimming *)

Lemma trim_left_split (chars s : string) :
  exists l, s = (l ++ trim_left s chars)%string /\ all_in chars l = true.
Proof.
  induction s as [|c s IH]; simpl.
  - exists EmptyString. auto.
  - destruct (mem_char c chars) eqn:E.
    + destruct IH as [l [Hs Hl]].
      exists (String c l). simpl. rewrite E, Hl, <- Hs. auto.
    + exists EmptyString. auto.
Qed.

Lemma trim_left_starts (chars s : string) :
  starts_in chars (trim_left s chars) = false.
Proof.
  induction s as [|c s IH]; simpl; trivial.
  destruct (mem_char c chars) eqn:E; simpl; trivial.
Qed.

Lemma trim_left_fixed (chars s : string) :
  starts_in chars s = false -> trim_left s chars = s.
Proof.
  destruct s as [|c s]; simpl; trivial.
  intros ->. reflexivity.
Qed.

Lemma trim_left_ends (chars s : string) :
  ends_in chars s = false -> ends_in chars (trim_left s chars) = false.
Proof.
  induction s as [|c s IH]; trivial.
  intros H. cbn [trim_left].
  destruct (mem_char c chars); trivial.
  destruct s as [|d s]; trivial.
  apply IH. exact H.
Qed.

Lemma trim_right_split (chars s : string) :
  exists r, s = (trim_right s chars ++ r)%string /\ all_in chars r = true.
Proof.
  induction s as [|c s IH]; cbn [trim_right].
  - exists EmptyString. auto.
  - destruct IH as [r [Hs Hr]].
    destruct (trim_right s chars) as [|d t] eqn:Et.
    + simpl in Hs. subst r.
      destruct (mem_char c chars) eqn:E.
      * exists (String c s). simpl. rewrite E, Hr. auto.
      * exists s. auto.
    + exists r. split; trivial. simpl. simpl in Hs. congruence.
Qed.

Lemma trim_right_ends (chars s : string) :
  ends_in chars (trim_right s chars) = false.
Proof.
  induction s as [|c s IH]; cbn [trim_right]; trivial.
  destruct (trim_right s chars) as [|d t] eqn:Et.
  - destruct (mem_char c chars) eqn:E; simpl; trivial.
  - exact IH.
Qed.

Lemma trim_right_fixed (chars s : string) :
  ends_in chars s = false -> trim_right s chars = s.
Proof.
  induction s as [|c s IH]; trivial.
  intros H. cbn [trim_right].
  destruct s as [|d s].
  - simpl in *. rewrite H. reflexivity.
  - rewrite IH by exact H. reflexivity.
Qed.

(** Trimming a trimmed string changes nothing. *)
Lemma trim_idempotent (chars s : string) :
  trim (trim s chars) chars = trim s chars.
Proof.
  unfold trim.
  rewrite (trim_right_fixed chars (trim_left (trim_right s chars) chars)).
  - apply trim_left_fixed, trim_left_starts.
  - apply trim_left_ends, trim_right_ends.
Qed.

(** What [trim] returns: the string without a run of [chars] at its
    left end and one at its right end, and no longer beginning or ending
    with one of them. *)
Lemma trim_spec (chars s : string) :
  (exists l r, s = (l ++ trim s chars ++ r)%string
               /\ all_in chars l = true /\ all_in chars r = true)
  /\ starts_in chars (trim s chars) = false
  /\ ends_in chars (trim s chars) = false.
Proof.
  unfold trim. split; [|split].
  - destruct (trim_right_split chars s) as [r [Hs Hr]].
    destruct (trim_left_split chars (trim_right s chars)) as [l [Ht Hl]].
    exists l, r. split; [|auto].
    rewrite Hs at 1. rewrite Ht at 1.
    clear. induction l as [|c l IH]; simpl; [reflexivity|].
    now rewrite IH.
  - apply trim_left_starts.
  - apply trim_left_ends, trim_right_ends.
Qed.

(** ** The engine, step by step *)
Section EngineFacts.

Context {W exn : Type}.
Variable verify_error : exn.
Variable policy : verify_policy.

Local Abbreviation process := (@process W exn).
Local Abbreviation mock_aux := (@mock_aux W exn).

(** Both overloads of [mock_impl::impl] run the base implementation
    on a binding that holds the arguments of this call: the variadic
    one because it stores them, the other because there is nothing to
    store. *)
Lemma impl_captures R Params (params : tuple_params_t Params)
      (s : process R Params) :
  impl verify_error policy params s
  = impl_base verify_error policy params (on_aux (set_params params) s).
Proof.
  destruct Params as [|P Ps]; [|reflexivity].
  destruct s as [[[r [] c p] f] w l], params. reflexivity.
Qed.

(** The base implementation leaves the binding alone. *)
Lemma impl_base_aux R Params (params : tuple_params_t Params)
      (s : process R Params) :
  aux (final_state (impl_base verify_error policy params s)) = aux s.
Proof.
  destruct R as [|T]; cbn [impl_base].
  - unfold impl_base_void.
    destruct (func (aux s)) as [f|]; reflexivity.
  - unfold impl_base_nonvoid.
    destruct (func (aux s)) as [f|]; [reflexivity|].
    unfold verified_read, bind, verify.
    destruct (assigned _), policy; reflexivity.
Qed.

Lemma mock_function_unfold R Params (params : tuple_params_t Params)
      (s : process R Params) :
  mock_function verify_error policy params s =
    with_destructor (impl_base verify_error policy params) mock_impl_dtor
                    (on_aux (set_params params) s).
Proof.
  unfold mock_function, with_destructor.
  rewrite impl_captures. reflexivity.
Qed.

(** What a call does to the binding: the arguments are stored and the
    counter is incremented if the call comes back. *)
Lemma mock_function_aux R Params (params : tuple_params_t Params)
      (s : process R Params) :
  aux (final_state (mock_function verify_error policy params s)) =
    match mock_function verify_error policy params s with
    | Aborted _ _ => set_params params (aux s)
    | Exited _ _ => count_incr (set_params params (aux s))
    end.
Proof.
  rewrite mock_function_unfold. unfold with_destructor.
  pose proof (impl_base_aux params (on_aux (set_params params) s)) as H.
  destruct (impl_base verify_error policy params
                      (on_aux (set_params params) s)) as [s1|c s1];
    simpl in *; rewrite H; reflexivity.
Qed.

Lemma mock_function_exited R Params (params : tuple_params_t Params)
      (s : process R Params) c s' :
  mock_function verify_error policy params s = Exited c s' ->
  aux s' = count_incr (set_params params (aux s)).
Proof.
  intros H. pose proof (mock_function_aux params s) as Ha.
  rewrite H in Ha. exact Ha.
Qed.

(** Without a [func], a non-[void] call reads the return slot. *)
Lemma mock_function_reads_result (T : ctype) Params
      (params : tuple_params_t Params) (s : process (NonVoid T) Params) :
  func (aux s) = None ->
  mock_function verify_error policy params s =
    with_destructor
      (verified_read verify_error policy (result (data (aux s))))
      mock_impl_dtor (on_aux (set_params params) s).
Proof.
  intros Hf. rewrite mock_function_unfold.
  unfold with_destructor. cbn [impl_base].
  unfold impl_base_nonvoid.
  replace (func (aux (on_aux (set_params params) s))) with (func (aux s))
    by reflexivity.
  rewrite Hf. reflexivity.
Qed.

(** With a [func], a call is a call of that callable, on the binding
    that already holds the arguments. *)
Lemma mock_function_calls_func R Params (f : function R Params)
      (params : tuple_params_t Params) (s : process R Params) :
  func (aux s) = Some f ->
  mock_function verify_error policy params s =
    with_destructor (call_func f params) mock_impl_dtor
                    (on_aux (set_params params) s).
Proof.
  intros Hf. rewrite mock_function_unfold.
  unfold with_destructor.
  destruct R as [|T]; cbn [impl_base];
    unfold impl_base_void, impl_base_nonvoid;
    replace (func (aux (on_aux (set_params params) s))) with (func (aux s))
      by reflexivity;
    rewrite Hf; reflexivity.
Qed.

(** Only [verify], configured to abort, terminates the process, and a
    call only gets to [verify] when there is no [func]. *)
Lemma mock_function_aborted R Params (params : tuple_params_t Params)
      (s s' : process R Params) :
  mock_function verify_error policy params s = Aborted _ s' ->
  policy = verify_abort /\ func (aux s) = None.
Proof.
  destruct (func (aux s)) as [f|] eqn:Hf.
  - rewrite mock_function_calls_func with (f := f) by exact Hf.
    discriminate.
  - destruct R as [|T].
    + rewrite mock_function_unfold. unfold with_destructor.
      cbn [impl_base]. unfold impl_base_void.
      replace (func (aux (on_aux (set_params params) s)))
        with (func (aux s)) by reflexivity.
      rewrite Hf. discriminate.
    + rewrite mock_function_reads_result by exact Hf.
      unfold with_destructor, verified_read, bind, verify.
      destruct (assigned _), policy; try discriminate. auto.
Qed.

End EngineFacts.

(** ** What holds in every state a test can bring about *)

(** [H : exec (a :: script) s = Some s'] becomes the first statement,
    [E : step a s = Some s1], and the rest of the script, run from
    [s1]. *)
Ltac exec_head H s1 E :=
  cbn [exec] in H;
  lazymatch type of H with
  | match ?st with _ => _ end = Some _ =>
      destruct st as [s1|] eqn:E; [|discriminate H]
  end.

(** [H : exec [] s = Some s']: the two states are the same. *)
Ltac exec_nil H := cbn [exec] in H; injection H as <-.

(** [H : step (Call params) s = Some s'] becomes the call that came
    back, [E : mock_function params s = Exited c s']. *)
Ltac step_call H c E :=
  cbn [step] in H;
  lazymatch type of H with
  | match ?r with _ => _ end = Some _ =>
      let s1 := fresh "s" in
      destruct r as [s1|c s1] eqn:E; [discriminate H|];
      injection H as <-
  end.

(** [H : step a s = Some s'] for a statement other than a call: [s']
    is replaced by what the statement makes of [s]. *)
Ltac step_other H := cbn [step] in H; injection H as <-.

Create HintDb binding.

Section Reachable.

Context {W exn : Type}.
Variable verify_error : exn.
Variable policy : verify_policy.

Local Abbreviation process := (@process W exn).
Local Abbreviation mock_aux := (@mock_aux W exn).
Local Abbreviation action := (@action W exn).

Lemma size_incr_bound (n : N) : (size_incr n < SIZE_MOD)%N.
Proof. unfold size_incr. apply N.mod_lt. discriminate. Qed.

Hint Resolve size_incr_bound : binding.

Lemma invariant_new R Params (prototype : string) :
  invariant (mock_aux_new R Params prototype : mock_aux R Params).
Proof.
  unfold invariant, mock_aux_new; cbn [data result m_prototype m_count].
  split; [apply trim_idempotent|split].
  - destruct R; simpl; trivial.
  - reflexivity.
Qed.

Lemma invariant_step R Params (a : action R Params)
      (s s' : process R Params) :
  invariant (aux s) ->
  step verify_error policy a s = Some s' ->
  invariant (aux s').
Proof.
  intros (Hp & Hr & Hc) H.
  destruct a as [params|f|other| |g];
    [step_call H c E|step_other H..].
  - rewrite (mock_function_exited _ _ _ _ E).
    unfold invariant;
      cbn [count_incr set_params data result m_prototype m_count].
    auto with binding.
  - unfold invariant. cbn. auto.
  - unfold invariant.
    destruct R as [|T]; cbn; auto.
    repeat split; auto. discriminate.
  - apply invariant_new.
  - unfold invariant. cbn. auto.
Qed.

Lemma reachable_invariant R Params (s : process R Params) :
  reachable verify_error policy s -> invariant (aux s).
Proof.
  induction 1 as [p w|s a s' _ IH Hs].
  - apply invariant_new.
  - exact (invariant_step _ _ IH Hs).
Qed.

Lemma reachable_exec R Params (script : list (action R Params)) :
  forall s s' : process R Params,
    reachable verify_error policy s ->
    exec verify_error policy script s = Some s' ->
    reachable verify_error policy s'.
Proof.
  induction script as [|a script IH]; intros s s' Hs H.
  - exec_nil H. exact Hs.
  - exec_head H s1 E.
    apply (IH s1 s'); [|exact H].
    eapply reachable_step; eassumption.
Qed.

Lemma pristine_new R Params (prototype : string) :
  pristine (mock_aux_new R Params prototype : mock_aux R Params).
Proof. exists prototype. reflexivity. Qed.

Lemma pristine_reset R Params (a : mock_aux R Params) : pristine (reset a).
Proof. exists (m_prototype (data a)). reflexivity. Qed.

(** *** Counting *)

Lemma calls_cons R Params (a : action R Params) script :
  calls (a :: script) = ((if is_call a then 1 else 0) + calls script)%N.
Proof.
  unfold calls. cbn [filter].
  destruct (is_call a); cbn [List.length]; lia.
Qed.

(** Without a [reset()], the counter advances by the number of calls,
    modulo the range of [size_t]. *)
Lemma exec_count R Params (script : list (action R Params)) :
  forall s s' : process R Params,
    (count (aux s) < SIZE_MOD)%N ->
    forallb (fun a => negb (is_reset a)) script = true ->
    exec verify_error policy script s = Some s' ->
    count (aux s') = ((count (aux s) + calls script) mod SIZE_MOD)%N.
Proof.
  induction script as [|a script IH]; intros s s' Hb Hn H.
  - exec_nil H.
    unfold calls. cbn. rewrite N.add_0_r, N.mod_small; trivial.
  - cbn [forallb] in Hn. apply andb_prop in Hn as [Ha Hn].
    exec_head H s1 E.
    assert (Hs1 : count (aux s1)
                  = if is_call a then size_incr (count (aux s))
                    else count (aux s)).
    { destruct a as [params|f|other| |g]; try discriminate Ha;
        [step_call E c E2|step_other E..].
      - rewrite (mock_function_exited _ _ _ _ E2). reflexivity.
      - reflexivity.
      - destruct R; reflexivity.
      - reflexivity. }
    assert (Hb1 : (count (aux s1) < SIZE_MOD)%N).
    { rewrite Hs1. destruct (is_call a); auto with binding. }
    rewrite calls_cons, (IH _ _ Hb1 Hn H), Hs1.
    destruct (is_call a).
    + unfold size_incr. rewrite N.Div0.add_mod_idemp_l.
      f_equal. lia.
    + reflexivity.
Qed.

(** *** What the statements of a test other than a call do *)

(** Only a call and [reset()] write the capture store. *)
Lemma step_keeps_params R Params (a : action R Params)
      (s s' : process R Params) :
  is_call a || is_reset a = false ->
  step verify_error policy a s = Some s' ->
  m_params (data (aux s')) = m_params (data (aux s)).
Proof.
  destruct a as [params|f|other| |g]; cbn [is_call is_reset orb];
    try discriminate; intros _ H; injection H as <-; try reflexivity.
  destruct R; reflexivity.
Qed.

Lemma exec_keeps_params R Params (script : list (action R Params)) :
  forall s s' : process R Params,
    forallb (fun a => negb (is_call a || is_reset a)) script = true ->
    exec verify_error policy script s = Some s' ->
    m_params (data (aux s')) = m_params (data (aux s)).
Proof.
  induction script as [|a script IH]; intros s s' Hn H.
  - exec_nil H. reflexivity.
  - cbn [forallb] in Hn. apply andb_prop in Hn as [Ha Hn].
    apply negb_true_iff in Ha.
    exec_head H s1 E.
    rewrite (IH _ _ Hn H). exact (step_keeps_params _ _ Ha E).
Qed.

(** Until the first call the capture store is as the constructor left
    it, and no statement of the test fails. *)
Lemma exec_without_call R Params (script : list (action R Params)) :
  forall s : process R Params,
    forallb (fun a => negb (is_call a)) script = true ->
    m_params (data (aux s)) = tuple_init Params ->
    exists s', exec verify_error policy script s = Some s'
               /\ m_params (data (aux s')) = tuple_init Params.
Proof.
  induction script as [|a script IH]; intros s Hn Hp.
  - exists s. auto.
  - cbn [forallb] in Hn. apply andb_prop in Hn as [Ha Hn].
    cbn [exec].
    destruct a as [params|f|other| |g]; try discriminate Ha;
      cbn [step]; apply (IH _ Hn); try exact Hp.
    + destruct R; exact Hp.
    + reflexivity.
Qed.



End Reachable.

(** [std::get] on a value-initialised tuple. *)
Lemma get_tuple_init (Params : list ctype) :
  forall N, get N Params (tuple_init Params)
            = value_init (nth_param_base_t N Params).
Proof.
  induction Params as [|P Ps IH]; intros [|n]; try reflexivity.
  exact (IH n).
Qed.

Section Claims.

Context {W exn : Type}.
Variable verify_error : exn.

Local Abbreviation process := (@process W exn).
Local Abbreviation mock_aux := (@mock_aux W exn).
Local Abbreviation action := (@action W exn).

(** C7.  The binding that [JG_MOCK] defines is constructed from
    ["<return-type> <name>(<parameter-type-list>) <post-qualifiers>"],
    and [prototype()] returns that string without the spaces that
    surround it: a binding constructed from any string [s] answers
    [trim(s, " ")], which is [s] less a run of spaces at either end and
    neither begins nor ends with a space. *)
Theorem prototype_is_trimmed_signature
        (R : rtype) (Params : list ctype)
        (return_type function_name va_args suffix s : string) :
  let description :=
    (return_type ++ " " ++ function_name ++ "(" ++ va_args ++ ") "
                 ++ suffix)%string in
  let generated : mock_aux R Params :=
    mock_aux_new R Params
                 (JG_MOCK_prototype return_type function_name va_args suffix)
  in
  prototype generated = trim description " "
  /\ trimmed_of " " description (prototype generated)
  /\ prototype (mock_aux_new R Params s : mock_aux R Params) = trim s " "
  /\ trimmed_of " " s (prototype (mock_aux_new R Params s : mock_aux R Params)).
Proof.
  cbv zeta. unfold prototype, mock_aux_new, JG_MOCK_prototype.
  cbn [data m_prototype].
  repeat split; try apply trim_spec.
Qed.

(** C1, as the code has it.  A call of a non-[void] mock function whose
    binding has no [func] and an unassigned [result] calls [verify] with
    a false condition.  Under the abort and the throw configuration the
    call then gives its caller no value: the process is terminated, or
    the error of [verify] leaves the call.  Under log-and-continue the
    call comes back with the payload of the slot, the failure having
    been reported first. *)
Theorem unconfigured_call_fails
        (policy : verify_policy) (T : ctype) (Params : list ctype)
        (params : tuple_params_t Params)
        (s : process (NonVoid T) Params) :
  func (aux s) = None ->
  assigned (result (data (aux s))) = false ->
  let r := mock_function verify_error policy params s in
  verify_log (final_state r) = false :: verify_log s
  /\ (policy <> verify_continue -> ~ returns_value r)
  /\ match policy with
     | verify_abort => exists s', r = Aborted _ s'
     | verify_throw => exists s', r = Exited (Raised _ verify_error) s'
     | verify_continue =>
         exists s', r = Exited (Normal (value (result (data (aux s))))) s'
     end.
Proof.
  intros Hf Ha. cbv zeta. rewrite (mock_function_reads_result _ _ _ _ Hf).
  unfold with_destructor, verified_read, bind, verify. rewrite Ha.
  destruct policy; cbn; (split; [reflexivity|]); split; eauto; congruence.
Qed.

(** C10.  The payload of a [verified] is value-initialised when it is
    constructed.  With [verify] configured to log and continue, reading
    an unassigned [verified] gives that value, and so does a call of a
    non-[void] mock function whose binding has no [func] and an
    unassigned [result]. *)
Theorem unassigned_read_is_value_initialised
        (T : ctype) (Params : list ctype) :
  value (verified_init T) = value_init T
  /\ (forall R (s : process R Params),
         verified_read verify_error verify_continue (verified_init T) s
         = Exited (Normal (value_init T)) (log_verify false s))
  /\ (forall (params : tuple_params_t Params)
             (s : process (NonVoid T) Params),
         reachable verify_error verify_continue s ->
         func (aux s) = None ->
         assigned (result (data (aux s))) = false ->
         exists s',
           mock_function verify_error verify_continue params s
           = Exited (Normal (value_init T)) s').
Proof.
  split; [reflexivity|]. split; [reflexivity|].
  intros params s Hr Hf Ha.
  rewrite (mock_function_reads_result _ _ _ _ Hf).
  destruct (reachable_invariant Hr) as (_ & Hv & _).
  cbn in Hv. specialize (Hv Ha).
  unfold with_destructor, verified_read, bind, verify.
  rewrite Ha, Hv. eexists. reflexivity.
Qed.

(** C6.  In every state that a test can bring about, [reset()] leaves
    a binding whose [count()] is 0 and [called()] false, whose [func] is
    empty, whose capture store holds value-initialised values, whose
    [result] is unassigned, and whose [prototype()] is the string it was
    before. *)
Theorem reset_restores_initial_state
        (policy : verify_policy) (R : rtype) (Params : list ctype)
        (s : process R Params) :
  reachable verify_error policy s ->
  let a := reset (aux s) in
  count a = 0%N
  /\ called a = false
  /\ func a = None
  /\ m_params (data a) = tuple_init Params
  /\ (forall i, param i a = value_init (nth_param_base_t (i - 1) Params))
  /\ result (data a) = mock_aux_return_init R
  /\ prototype a = prototype (aux s).
Proof.
  intros Hr. destruct (reachable_invariant Hr) as (Hp & _).
  cbv zeta. unfold reset, mock_aux_new, count, called, prototype, param.
  cbn [data func m_params m_count m_prototype result].
  repeat split; auto using get_tuple_init.
Qed.


(** C9.  On a binding that was constructed or reset, and on which the
    test has since done anything but a call, [param<i>()] is the
    value-initialised value of the type at position [i]; none of this
    fails. *)
Theorem param_is_default_before_first_call
        (policy : verify_policy) (R : rtype) (Params : list ctype)
        (s : process R Params) (script : list (action R Params)) :
  pristine (aux s) ->
  forallb (fun a => negb (is_call a)) script = true ->
  exists s',
    exec verify_error policy script s = Some s'
    /\ forall i, 1 <= i <= List.length Params ->
                 param i (aux s')
                 = value_init (nth_param_base_t (i - 1) Params).
Proof.
  intros [p Hp] Hn.
  destruct (exec_without_call verify_error policy script s Hn)
    as (s' & He & Hs').
  - rewrite Hp. reflexivity.
  - exists s'. split; [exact He|].
    intros i _. unfold param. rewrite Hs'. apply get_tuple_init.
Qed.

(** C2, as the code has it.  After the [N] calls of a test that began
    with the construction or a [reset()] of the binding and has not
    reset it since, [count()] is [N] modulo [2^64], the range of
    [size_t].  For [N < 2^64], [count()] is [N], and [called()] is false
    exactly when [N] is 0. *)
Theorem count_is_number_of_calls
        (policy : verify_policy) (R : rtype) (Params : list ctype)
        (s s' : process R Params) (script : list (action R Params)) :
  pristine (aux s) ->
  forallb (fun a => negb (is_reset a)) script = true ->
  exec verify_error policy script s = Some s' ->
  count (aux s') = (calls script mod SIZE_MOD)%N
  /\ ((calls script < SIZE_MOD)%N ->
      count (aux s') = calls script
      /\ (called (aux s') = false <-> calls script = 0%N)).
Proof.
  intros [p Hp] Hn He.
  assert (H0 : count (aux s) = 0%N) by (rewrite Hp; reflexivity).
  assert (Hc : count (aux s') = (calls script mod SIZE_MOD)%N).
  { assert (Hb : (count (aux s) < SIZE_MOD)%N) by (rewrite H0; reflexivity).
    rewrite (exec_count verify_error policy script s Hb Hn He), H0.
    reflexivity. }
  split; [exact Hc|]. intros Hlt.
  rewrite N.mod_small in Hc by exact Hlt.
  split; [exact Hc|].
  unfold called. fold (count (aux s')). rewrite Hc.
  rewrite N.ltb_ge. lia.
Qed.

End Claims.

(** * Examples: [int foo(int)] and [void f()] *)

Example foo_prototype : prototype (aux foo_start) = "int foo(int)"%string.
Proof. reflexivity. Qed.

Example find_by_id_prototype :
  trim (JG_MOCK_prototype "const char*" "find_by_id" "int" "override") " "
  = "const char* find_by_id(int) override"%string.
Proof. reflexivity. Qed.

(** A parameter passed as [const std::string&] is captured by value,
    at position 2. *)
Example note_captures_both :
  option_map (fun s => (param 1 (aux s), param 2 (aux s), count (aux s)))
             note_called
  = Some (4%Z, "four"%string, 1%N).
Proof. reflexivity. Qed.

(** The callable sees the arguments of the call in the capture store,
    and a counter that does not count the call yet. *)
Example spying_sees_capture :
  exec verify_failed verify_abort
       [AssignFunc (Some spying); Call (foo_args 5); Call (foo_args 6)]
       foo_start
  = Some (Process
            (MockAux (AuxData (NonVoid int_t) [int_t] (verified_init int_t)
                              (foo_args 6) 2 "int foo(int)")
                     (Some spying))
            [1; 6; 0; 5]%Z []).
Proof. reflexivity. Qed.

(** ** Where the specification and the code part ways *)

(** Against C1: with [verify] configured to log and continue, the call
    of an unconfigured [int foo(int)] comes back with the value 0. *)
Lemma unconfigured_call_returns_default :
  func (aux foo_start) = None
  /\ assigned (result (data (aux foo_start))) = false
  /\ returns_value
       (mock_function verify_failed verify_continue (foo_args 5) foo_start)
  /\ exists s',
      mock_function verify_failed verify_continue (foo_args 5) foo_start
      = Exited (Normal 0%Z) s'.
Proof.
  repeat split. eexists. reflexivity.
Qed.

(** Against C5: [foo(5); foo_.reset();] and [param<1>()] is 0, not 5,
    with no call in between. *)
Lemma reset_forgets_captured_params :
  exists s',
    exec verify_failed verify_continue [Call (foo_args 5); Reset] foo_start
    = Some s'
    /\ param 1 (aux s') = 0%Z
    /\ param 1 (aux s') <> get 0 [int_t] (foo_args 5).
Proof.
  eexists. split; [reflexivity|]. split; [reflexivity|]. discriminate.
Qed.

Section VoidCalls.

Context {W exn : Type}.
Variable verify_error : exn.
Variable policy : verify_policy.

(** A [void] mock function never reads a return slot: no statement of
    a test on its binding terminates the process. *)
Lemma exec_void_total Params (script : list (@action W exn Void Params)) :
  forall s, exists s', exec verify_error policy script s = Some s'.
Proof.
  induction script as [|a script IH]; intros s; cbn [exec].
  - eauto.
  - destruct a as [params|f|other| |g]; cbn [step]; try apply IH.
    rewrite mock_function_unfold. unfold with_destructor.
    cbn [impl_base]. unfold impl_base_void.
    destruct (func (aux (on_aux (set_params params) s))); apply IH.
Qed.

Lemma repeat_call_calls R Params (params : tuple_params_t Params) n :
  calls (repeat (Call params : @action W exn R Params) n) = N.of_nat n.
Proof.
  unfold calls. f_equal.
  induction n as [|n IH]; cbn; [reflexivity|]. now rewrite IH.
Qed.

Lemma repeat_call_no_reset R Params (params : tuple_params_t Params) n :
  forallb (fun a => negb (is_reset a))
          (repeat (Call params : @action W exn R Params) n) = true.
Proof. induction n as [|n IH]; cbn; trivial. Qed.

End VoidCalls.

(** Against C2: after [2^64] calls of [void f()], [count()] is 0 and
    [called()] is false. *)
Lemma count_wraps_around :
  exists s',
    exec verify_failed verify_abort f_many_calls f_start = Some s'
    /\ calls f_many_calls = (2 ^ 64)%N
    /\ count (aux s') = 0%N
    /\ count (aux s') <> calls f_many_calls
    /\ called (aux s') = false.
Proof.
  destruct (exec_void_total verify_failed verify_abort f_many_calls f_start)
    as [s' He].
  assert (Hn : calls f_many_calls = SIZE_MOD).
  { unfold f_many_calls. rewrite repeat_call_calls. apply N2Nat.id. }
  assert (Hc : count (aux s') = 0%N).
  { rewrite (exec_count verify_failed verify_abort f_many_calls f_start)
      with (s' := s').
    - rewrite Hn. change (count (aux f_start)) with 0%N.
      rewrite N.add_0_l. apply N.Div0.mod_same.
    - reflexivity.
    - apply repeat_call_no_reset.
    - exact He. }
  exists s'. split; [exact He|]. split; [exact Hn|]. split; [exact Hc|].
  split.
  - rewrite Hc, Hn. discriminate.
  - unfold called. fold (count (aux s')). rewrite Hc. reflexivity.
Qed.

(** ** The theorems at work on [int foo(int)] *)

Lemma unconfigured_call_fails_witness :
  func (aux foo_start) = None
  /\ assigned (result (data (aux foo_start))) = false
  /\ verify_log
       (final_state
          (mock_function verify_failed verify_abort (foo_args 5) foo_start))
     = [false]
  /\ ~ returns_value
       (mock_function verify_failed verify_abort (foo_args 5) foo_start).
Proof.
  split; [reflexivity|]. split; [reflexivity|].
  destruct (unconfigured_call_fails
              verify_failed verify_abort (foo_args 5) foo_start
              eq_refl eq_refl) as (Hlog & Hno & _).
  split; [exact Hlog|]. apply Hno. discriminate.
Defined.

Lemma unassigned_read_is_value_initialised_witness :
  reachable verify_failed verify_continue foo_start
  /\ func (aux foo_start) = None
  /\ assigned (result (data (aux foo_start))) = false
  /\ exists s',
      mock_function verify_failed verify_continue (foo_args 5) foo_start
      = Exited (Normal 0%Z) s'.
Proof.
  assert (Hr : reachable verify_failed verify_continue foo_start)
    by apply reachable_start.
  split; [exact Hr|]. split; [reflexivity|]. split; [reflexivity|].
  destruct (unassigned_read_is_value_initialised
              (W := tworld) verify_failed int_t [int_t]) as (_ & _ & H).
  exact (H (foo_args 5) foo_start Hr eq_refl eq_refl).
Defined.

(** A call whose callable throws is counted, and the arguments are
    stored. *)
Example throwing_call_is_counted :
  exists s',
    mock_function verify_failed verify_abort (foo_args 5) foo_throwing
    = Exited (Raised _ "boom"%string) s'
    /\ count (aux s') = 1%N
    /\ param 1 (aux s') = 5%Z.
Proof. eexists. repeat split. Qed.

(** [foo_.func] and [foo_.result] both set: [foo(5)] is [doubling(5)],
    and [verify] is not called. *)
Example func_beats_result :
  exists s',
    mock_function verify_failed verify_abort (foo_args 5)
                  foo_func_and_result
    = Exited (Normal 10%Z) s'
    /\ world s' = [5%Z]
    /\ verify_log s' = [].
Proof. eexists. repeat split. Qed.

(** The example of the specification: [count() == 3], a callable set,
    [prototype() == "int foo(int)"]. *)
Lemma reset_restores_initial_state_witness :
  exists s,
    exec verify_failed verify_abort three_hooked_calls foo_start = Some s
    /\ count (aux s) = 3%N
    /\ func (aux s) = Some doubling
    /\ prototype (aux s) = "int foo(int)"%string
    /\ reachable verify_failed verify_abort s
    /\ count (reset (aux s)) = 0%N
    /\ called (reset (aux s)) = false
    /\ func (reset (aux s)) = None
    /\ prototype (reset (aux s)) = "int foo(int)"%string.
Proof.
  eexists. split; [reflexivity|].
  split; [reflexivity|]. split; [reflexivity|]. split; [reflexivity|].
  match goal with
  | |- reachable _ _ ?s /\ _ =>
      assert (Hr : reachable verify_failed verify_abort s)
  end.
  { eapply reachable_exec
      with (s := foo_start) (script := three_hooked_calls);
      [apply reachable_start|reflexivity]. }
  split; [exact Hr|].
  destruct (reset_restores_initial_state Hr)
    as (Hc & Hcalled & Hf & _ & _ & _ & Hp).
  split; [exact Hc|]. split; [exact Hcalled|]. split; [exact Hf|].
  rewrite Hp. reflexivity.
Defined.


Lemma param_is_default_before_first_call_witness :
  pristine (aux foo_start)
  /\ forallb (fun a => negb (is_call a)) not_calling = true
  /\ exists s',
      exec verify_failed verify_abort not_calling foo_start = Some s'
      /\ param 1 (aux s') = 0%Z.
Proof.
  assert (Hp : pristine (aux foo_start)) by apply pristine_new.
  split; [exact Hp|]. split; [reflexivity|].
  destruct (param_is_default_before_first_call
              verify_failed verify_abort foo_start not_calling Hp eq_refl)
    as (s' & He & H).
  exists s'. split; [exact He|].
  refine (H 1 _). cbn. lia.
Defined.

Lemma count_is_number_of_calls_witness :
  pristine (aux foo_start)
  /\ forallb (fun a => negb (is_reset a)) three_calls = true
  /\ exists s',
      exec verify_failed verify_abort three_calls foo_start = Some s'
      /\ count (aux s') = 3%N
      /\ called (aux s') = true.
Proof.
  assert (Hp : pristine (aux foo_start)) by apply pristine_new.
  split; [exact Hp|]. split; [reflexivity|].
  eexists. split; [reflexivity|].
  refine ((fun H => conj (proj1 (proj2 H eq_refl)) eq_refl)
            (count_is_number_of_calls
               verify_failed verify_abort foo_start three_calls
               Hp eq_refl eq_refl)).
Defined.


(** * Further properties of the code *)

(** ** The engine: a configured [result], [void] functions, [reset()] *)
Section MoreOfTheEngine.

Context {W exn : Type}.
Variable verify_error : exn.

Local Abbreviation process := (@process W exn).
Local Abbreviation mock_aux := (@mock_aux W exn).
Local Abbreviation action := (@action W exn).

(** A script in two parts runs the first part, then the second. *)
Lemma exec_app policy R Params (script1 script2 : list (action R Params)) :
  forall s : process R Params,
    exec verify_error policy (script1 ++ script2) s
    = match exec verify_error policy script1 s with
      | Some s1 => exec verify_error policy script2 s1
      | None => None
      end.
Proof.
  induction script1 as [|a script1 IH]; intros s; cbn [exec app].
  - reflexivity.
  - destruct (step verify_error policy a s) as [s1|]; auto.
Qed.

(** A call on a binding whose [result] is assigned comes back, has
    called [verify] with [true] if it called it at all, and leaves
    [result] as it was. *)
Lemma call_with_assigned_result policy (T : ctype) Params
      (params : tuple_params_t Params) (s : process (NonVoid T) Params) :
  assigned (result (data (aux s))) = true ->
  exists c s',
    mock_function verify_error policy params s = Exited c s'
    /\ result (data (aux s')) = result (data (aux s))
    /\ func (aux s') = func (aux s)
    /\ (verify_log s' = verify_log s
        \/ verify_log s' = true :: verify_log s)
    /\ (func (aux s) = None ->
        c = Normal (value (result (data (aux s))))).
Proof.
  intros Ha. destruct (func (aux s)) as [f|] eqn:Hf.
  - rewrite mock_function_calls_func with (f := f) by exact Hf.
    do 2 eexists. split; [reflexivity|].
    cbn. repeat split; auto. discriminate.
  - rewrite mock_function_reads_result by exact Hf.
    unfold with_destructor, verified_read, bind, verify. rewrite Ha.
    do 2 eexists. split; [reflexivity|].
    cbn. repeat split; auto.
Qed.

(** Only [reset()] and an assignment to [result] write the slot. *)
Lemma step_keeps_result policy R Params (a : action R Params)
      (s s' : process R Params) :
  is_reset a || is_assign_result a = false ->
  step verify_error policy a s = Some s' ->
  result (data (aux s')) = result (data (aux s)).
Proof.
  destruct a as [params|f|other| |g];
    cbn [is_reset is_assign_result orb]; try discriminate; intros _ H;
    [step_call H c E|step_other H..].
  - rewrite (mock_function_exited _ _ _ _ E). reflexivity.
  - reflexivity.
  - reflexivity.
Qed.

(** X1.  With no [func] and [result] assigned, the call returns the
    assigned value, whatever the configuration of [verify]: [verify] is
    called once, with [true]; the test state is untouched; the binding
    has stored the arguments and counted the call. *)
Theorem configured_result_is_returned
        (policy : verify_policy) (T : ctype) (Params : list ctype)
        (other : T) (params : tuple_params_t Params)
        (s : process (NonVoid T) Params) :
  func (aux s) = None ->
  mock_function verify_error policy params (on_aux (assign_result other) s)
  = Exited (Normal (other : returned (NonVoid T)))
           (Process
              (count_incr (set_params params (assign_result other (aux s))))
              (world s) (true :: verify_log s)).
Proof.
  intros Hf.
  rewrite mock_function_reads_result by exact Hf.
  reflexivity.
Qed.


(** X3.  The value assigned to [result] is what every later call
    without a [func] returns, until [result] is assigned again or the
    binding is reset: calls, assignments to [func] and other code in
    between change nothing. *)
Theorem configured_result_persists
        (policy : verify_policy) (T : ctype) (Params : list ctype)
        (other : T) (script : list (action (NonVoid T) Params)) :
  forall s s' : process (NonVoid T) Params,
    value (result (data (aux s))) = other ->
    assigned (result (data (aux s))) = true ->
    forallb (fun a => negb (is_reset a || is_assign_result a)) script
    = true ->
    exec verify_error policy script s = Some s' ->
    func (aux s') = None ->
    forall params : tuple_params_t Params,
    exists s'',
      mock_function verify_error policy params s'
      = Exited (Normal (other : returned (NonVoid T))) s''.
Proof.
  induction script as [|a script IH]; intros s s' Hv Ha Hn He Hf params.
  - exec_nil He.
    destruct (call_with_assigned_result policy params s Ha)
      as (c & s'' & Hc & _ & _ & _ & Hret).
    exists s''. rewrite Hc, (Hret Hf), Hv. reflexivity.
  - cbn [forallb] in Hn. apply andb_prop in Hn as [Hr Hn].
    apply negb_true_iff in Hr.
    exec_head He s1 E.
    pose proof (step_keeps_result _ _ _ Hr E) as Hres.
    apply (IH s1 s'); auto; rewrite Hres; assumption.
Qed.


(** X5.  [count()] is the number of calls since the last [reset()],
    modulo [2^64]: what came before the [reset()], calls included, does
    not count. *)
Theorem count_since_last_reset
        (policy : verify_policy) (R : rtype) (Params : list ctype)
        (before since : list (action R Params))
        (s s' : process R Params) :
  forallb (fun a => negb (is_reset a)) since = true ->
  exec verify_error policy (before ++ Reset :: since) s = Some s' ->
  count (aux s') = (calls since mod SIZE_MOD)%N.
Proof.
  intros Hn He. rewrite exec_app in He.
  destruct (exec verify_error policy before s) as [s1|]; [|discriminate].
  cbn [exec step] in He.
  rewrite (exec_count verify_error policy since (on_aux reset s1))
    with (s' := s'); auto.
  reflexivity.
Qed.

(** X6.  [reset()] also forgets [func] and [result]: whatever was
    configured before, the next call of a non-[void] mock function
    calls [verify] with [false], and ends as the configuration of
    [verify] decides; when [verify] continues, the value returned is
    the value-initialised one. *)
Theorem reset_forgets_configuration
        (policy : verify_policy) (T : ctype) (Params : list ctype)
        (params : tuple_params_t Params)
        (s : process (NonVoid T) Params) :
  let r := mock_function verify_error policy params (on_aux reset s) in
  verify_log (final_state r) = false :: verify_log s
  /\ match policy with
     | verify_abort => exists s', r = Aborted _ s'
     | verify_throw => exists s', r = Exited (Raised _ verify_error) s'
     | verify_continue =>
         exists s',
         r = Exited (Normal (value_init T : returned (NonVoid T))) s'
     end.
Proof.
  cbv zeta. rewrite mock_function_reads_result by reflexivity.
  unfold with_destructor, verified_read, bind, verify.
  destruct policy; cbn; split; eauto.
Qed.

End MoreOfTheEngine.

(** ** [verified<T>] for a reference type *)
Section ReferenceSlot.

Context {W exn : Type}.
Variable verify_error : exn.

Local Abbreviation process := (@process W exn).

(** X7.  A reference slot does not copy.  Once a reference has been
    assigned, reading the slot passes [verify] under every
    configuration and evaluates the pointer in the memory of the moment
    of the read: it gives the object's value of that moment, and it is
    undefined behaviour when the object is no longer alive, for
    [assigned] says nothing about the lifetime of the referent.
    Reading a slot that was never assigned calls [verify] with [false]:
    configured to abort or to throw, [verify] stops the read before the
    pointer is used; configured to continue, the read dereferences the
    null pointer. *)
Theorem reference_slot_read
        (policy : verify_policy) (R : rtype) (Params : list ctype)
        (T : ctype) (m : memory T) (other : address)
        (v : verified_ref T) (s : process R Params) :
  verified_ref_read verify_error policy m (verified_ref_assign other v) s
  = Exited (Normal (deref m (Some other))) (log_verify true s)
  /\ (forall x, m other = Some x -> deref m (Some other) = Object T x)
  /\ (m other = None -> deref m (Some other) = Undefined T)
  /\ verified_ref_read verify_error policy m (verified_ref_init T) s
     = match policy with
       | verify_abort => Aborted _ (log_verify false s)
       | verify_throw =>
           Exited (Raised _ verify_error) (log_verify false s)
       | verify_continue =>
           Exited (Normal (Undefined T)) (log_verify false s)
       end.
Proof.
  split; [reflexivity|]. unfold deref.
  split; [intros x ->; reflexivity|].
  split; [intros ->; reflexivity|].
  destruct policy; reflexivity.
Qed.

End ReferenceSlot.

(** ** The macros *)

Lemma append_cancel_l (x a b : string) :
  (x ++ a)%string = (x ++ b)%string -> a = b.
Proof.
  induction x as [|c x IH]; cbn; intros H; [exact H|].
  injection H as H. auto.
Qed.

Lemma append_cancel_r (c : ascii) (a b : string) :
  (a ++ String c EmptyString)%string = (b ++ String c EmptyString)%string ->
  a = b.
Proof.
  revert b. induction a as [|d a IH]; intros [|e b]; cbn; intros H.
  - reflexivity.
  - injection H as _ H. destruct b; discriminate.
  - injection H as _ H. destruct a; discriminate.
  - injection H as -> H. f_equal. auto.
Qed.

Lemma length_append (a b : string) :
  String.length (a ++ b) = String.length a + String.length b.
Proof. induction a as [|c a IH]; cbn; auto. Qed.

(** X8.  The bindings of the overloads of one function are told apart
    by their suffixes alone: for one function name, two suffixes give
    the same binding name only when they are the same suffix.  And the
    name of a binding is never the name of the function it belongs
    to. *)
Theorem aux_name_distinguishes_overloads
        (function_name suffix1 suffix2 : string) :
  (aux_name function_name suffix1 = aux_name function_name suffix2
   <-> suffix1 = suffix2)
  /\ aux_name function_name suffix1 <> function_name.
Proof.
  unfold aux_name, _JG_CONCAT3. split; [split|].
  - intros H. apply append_cancel_l in H.
    exact (append_cancel_r _ _ _ H).
  - intros ->. reflexivity.
  - intros H. apply (f_equal String.length) in H.
    rewrite !length_append in H. cbn in H. lia.
Qed.

(** The counting macro looks at the same place of the same list in
    both compilers' versions, but for the first token. *)
Lemma _JG_VA_COUNT_nth (_MSC_VER comma_elided : bool)
      (va_args : list pp_token) :
  _JG_VA_COUNT _MSC_VER comma_elided va_args
  = nth_error (after_comma comma_elided va_args ++ countdown) 10.
Proof. destruct _MSC_VER; reflexivity. Qed.

(** X9.  [_JG_VA_COUNT] counts from one to ten arguments, in the
    version for MSVC and in the other alike, whatever the preprocessor
    does with the comma before an empty [__VA_ARGS__].  Without an
    argument it gives 0 only where that comma is removed; where it is
    kept, it gives 1.  Given more than ten arguments it does not count:
    it expands to the eleventh argument. *)
Theorem va_count_counts_to_ten
        (_MSC_VER comma_elided : bool) (va_args : list pp_token) :
  (1 <= List.length va_args <= 10 ->
   _JG_VA_COUNT _MSC_VER comma_elided va_args
   = Some (Number (List.length va_args)))
  /\ (va_args = [] ->
      _JG_VA_COUNT _MSC_VER comma_elided va_args
      = Some (Number (if comma_elided then 0 else 1)))
  /\ (10 < List.length va_args ->
      _JG_VA_COUNT _MSC_VER comma_elided va_args = nth_error va_args 10).
Proof.
  rewrite _JG_VA_COUNT_nth. split; [|split].
  - intros [H1 H10]. destruct va_args as [|a va_args]; [cbn in H1; lia|].
    do 10 (destruct va_args as [|? va_args]; [reflexivity|]).
    cbn in H10. lia.
  - intros ->. destruct comma_elided; reflexivity.
  - intros H. destruct va_args as [|a va_args]; [cbn in H; lia|].
    apply nth_error_app1. exact H.
Qed.

(** X10.  For a function of one to ten parameters, [JG_MOCK] declares
    the parameters [p1 .. pN], one of each type of the list and in its
    order, and passes exactly these, in this order, to the engine.  For
    a function without parameters both lists are empty only where the
    preprocessor removes the comma before an empty [__VA_ARGS__]; where
    it keeps the comma, the function gets one parameter [p1] without a
    type.  For more than ten parameters neither list expands. *)
Theorem params_decl_matches_call
        (_MSC_VER comma_elided : bool) (va_args : list string) :
  let names := firstn (List.length va_args) param_names in
  (1 <= List.length va_args <= 10 ->
   _JG_MOCK_FUNC_PARAMS_DECL _MSC_VER comma_elided va_args
   = Some (combine va_args names)
   /\ _JG_MOCK_FUNC_PARAMS_CALL _MSC_VER comma_elided va_args = Some names
   /\ List.length names = List.length va_args)
  /\ (va_args = [] ->
      _JG_MOCK_FUNC_PARAMS_DECL _MSC_VER comma_elided va_args
      = Some (if comma_elided then []
              else [(EmptyString, "p1"%string)])
      /\ _JG_MOCK_FUNC_PARAMS_CALL _MSC_VER comma_elided va_args
         = Some (if comma_elided then [] else ["p1"%string]))
  /\ (10 < List.length va_args ->
      _JG_MOCK_FUNC_PARAMS_DECL _MSC_VER comma_elided va_args = None
      /\ _JG_MOCK_FUNC_PARAMS_CALL _MSC_VER comma_elided va_args = None).
Proof.
  cbv zeta.
  unfold _JG_MOCK_FUNC_PARAMS_DECL, _JG_MOCK_FUNC_PARAMS_CALL.
  rewrite _JG_VA_COUNT_nth. split; [|split].
  - intros [H1 H10]. destruct va_args as [|a va_args]; [cbn in H1; lia|].
    do 10 (destruct va_args as [|? va_args];
           [repeat split; reflexivity|]).
    cbn in H10. lia.
  - intros ->. destruct comma_elided; split; reflexivity.
  - intros H. destruct va_args as [|a va_args]; [cbn in H; lia|].
    cbn [map after_comma].
    rewrite nth_error_app1 by (cbn [List.length]; rewrite length_map; exact H).
    change (Text a :: map Text va_args) with (map Text (a :: va_args)).
    rewrite nth_error_map.
    destruct (nth_error (a :: va_args) 10); split; reflexivity.
Qed.

(** ** The further properties at work *)

Lemma configured_result_is_returned_witness :
  func (aux foo_start) = None
  /\ mock_function verify_failed verify_abort (foo_args 5) foo_result_7
     = Exited (Normal 7%Z)
              (Process
                 (count_incr
                    (set_params (foo_args 5)
                                (assign_result (7%Z : int_t)
                                               (aux foo_start))))
                 [] [true]).
Proof.
  split; [reflexivity|].
  exact (configured_result_is_returned
           verify_failed verify_abort (7%Z : int_t) (foo_args 5)
           foo_start eq_refl).
Defined.


Lemma configured_result_persists_witness :
  value (result (data (aux foo_result_7))) = 7%Z
  /\ assigned (result (data (aux foo_result_7))) = true
  /\ forallb (fun a => negb (is_reset a || is_assign_result a))
             hooked_then_cleared = true
  /\ exists s',
      exec verify_failed verify_abort hooked_then_cleared foo_result_7
      = Some s'
      /\ func (aux s') = None
      /\ exists s'',
          mock_function verify_failed verify_abort (foo_args 5) s'
          = Exited (Normal 7%Z) s''.
Proof.
  split; [reflexivity|]. split; [reflexivity|]. split; [reflexivity|].
  eexists. split; [reflexivity|]. split; [reflexivity|].
  refine (configured_result_persists
            verify_failed verify_abort hooked_then_cleared
            foo_result_7 _ _ _ _ _ (foo_args 5)); reflexivity.
Defined.


Lemma count_since_last_reset_witness :
  forallb (fun a => negb (is_reset a)) three_calls = true
  /\ exists s',
      exec verify_failed verify_abort
           (three_hooked_calls ++ Reset :: three_calls) foo_start
      = Some s'
      /\ count (aux s') = 3%N.
Proof.
  split; [reflexivity|].
  destruct (exec verify_failed verify_abort
                 (three_hooked_calls ++ Reset :: three_calls) foo_start)
    as [s'|] eqn:He.
  - exists s'. split; [reflexivity|].
    rewrite (count_since_last_reset
               verify_failed verify_abort three_hooked_calls three_calls
               foo_start eq_refl He).
    reflexivity.
  - vm_compute in He. discriminate He.
Defined.

Lemma reference_slot_read_witness :
  one_int 16%N 42%Z 16%N = Some 42%Z
  /\ deref (one_int 16%N 42%Z) (Some 16%N) = Object int_t 42%Z
  /\ one_int 16%N 42%Z 17%N = None
  /\ deref (one_int 16%N 42%Z) (Some 17%N) = Undefined int_t.
Proof.
  destruct (reference_slot_read
              verify_failed verify_abort (one_int 16%N 42%Z) 16%N
              (verified_ref_init int_t) foo_start) as (_ & Hlive & _).
  destruct (reference_slot_read
              verify_failed verify_abort (one_int 16%N 42%Z) 17%N
              (verified_ref_init int_t) foo_start) as (_ & _ & Hdead & _).
  split; [reflexivity|]. split; [exact (Hlive 42%Z eq_refl)|].
  split; [reflexivity|]. exact (Hdead eq_refl).
Defined.

Lemma aux_name_distinguishes_overloads_witness :
  aux_name "foo" "_int" = "foo_int_"%string
  /\ aux_name "foo" "_int" <> aux_name "foo" "_str"
  /\ aux_name "foo" "_int" <> "foo"%string.
Proof.
  destruct (aux_name_distinguishes_overloads "foo" "_int" "_str")
    as ((Hsame & _) & Hother).
  split; [reflexivity|]. split; [|exact Hother].
  intros H. specialize (Hsame H). discriminate Hsame.
Defined.

Lemma va_count_counts_to_ten_witness :
  1 <= List.length (map Text note_types) <= 10
  /\ _JG_VA_COUNT true false (map Text note_types) = Some (Number 2)
  /\ _JG_VA_COUNT false false (map Text note_types) = Some (Number 2)
  /\ _JG_VA_COUNT false true [] = Some (Number 0)
  /\ _JG_VA_COUNT false false [] = Some (Number 1).
Proof.
  assert (H : 1 <= List.length (map Text note_types) <= 10)
    by (cbn; lia).
  split; [exact H|]. split; [|split; [|split]].
  - exact (proj1 (va_count_counts_to_ten true false (map Text note_types))
                 H).
  - exact (proj1 (va_count_counts_to_ten false false
                                         (map Text note_types)) H).
  - exact (proj1 (proj2 (va_count_counts_to_ten false true [])) eq_refl).
  - exact (proj1 (proj2 (va_count_counts_to_ten false false [])) eq_refl).
Defined.

Lemma params_decl_matches_call_witness :
  1 <= List.length note_types <= 10
  /\ _JG_MOCK_FUNC_PARAMS_DECL false false note_types
     = Some [("int", "p1"); ("const std::string&", "p2")]%string
  /\ _JG_MOCK_FUNC_PARAMS_CALL false false note_types
     = Some ["p1"; "p2"]%string
  /\ _JG_MOCK_FUNC_PARAMS_DECL false false []
     = Some [(EmptyString, "p1"%string)].
Proof.
  assert (H : 1 <= List.length note_types <= 10) by (cbn; lia).
  split; [exact H|].
  destruct (proj1 (params_decl_matches_call false false note_types) H)
    as (Hd & Hc & _).
  split; [exact Hd|]. split; [exact Hc|].
  exact (proj1 (proj1 (proj2 (params_decl_matches_call false false []))
                      eq_refl)).
Defined.

(** * The engine, for callables of any kind: properties *)
Section AnyCallable.

Context {W exn : Type}.
Variable callable : rtype -> list ctype -> Type.
Variable invoke :
  forall R Params, callable R Params -> tuple_params_t Params ->
                   @M exn (@General.process W callable R Params)
                      (returned R).
Variable verify_error : exn.
Variable policy : verify_policy.

Local Abbreviation gprocess := (@General.process W callable).
Local Abbreviation gaction := (@General.action W callable).
Local Abbreviation gcall := (General.mock_function invoke verify_error policy).
Local Abbreviation gimpl := (General.impl invoke verify_error policy).
Local Abbreviation gimpl_base :=
  (General.impl_base invoke verify_error policy).
Local Abbreviation gexec := (General.exec invoke verify_error policy).
Local Abbreviation gstep := (General.step invoke verify_error policy).
Local Abbreviation gdtor := (@General.mock_impl_dtor W callable _ _).
Local Abbreviation captured := (@General.captured W callable _ _).

Lemma general_impl_captures R Params (params : tuple_params_t Params)
      (s : gprocess R Params) :
  gimpl params s = gimpl_base params (captured params s).
Proof.
  destruct Params as [|P Ps]; [|reflexivity].
  destruct s as [[[r [] c p] f] w l], params. reflexivity.
Qed.

Lemma general_call_unfold R Params (params : tuple_params_t Params)
      (s : gprocess R Params) :
  gcall params s
  = with_destructor (gimpl_base params) gdtor (captured params s).
Proof.
  unfold General.mock_function, with_destructor.
  rewrite general_impl_captures. reflexivity.
Qed.

(** With a [func], resolving the outcome is calling it. *)
Lemma general_impl_base_func R Params (f : callable R Params)
      (params : tuple_params_t Params) (s : gprocess R Params) :
  General.func (General.aux s) = Some f ->
  gimpl_base params s = invoke f params s.
Proof.
  intros Hf. destruct R as [|T]; cbn [General.impl_base];
    unfold General.impl_base_void, General.impl_base_nonvoid;
    rewrite Hf; reflexivity.
Qed.

(** Without a [func], resolving the outcome leaves the binding alone. *)
Lemma general_impl_base_no_func R Params
      (params : tuple_params_t Params) (s : gprocess R Params) :
  General.func (General.aux s) = None ->
  General.aux (final_state (gimpl_base params s)) = General.aux s.
Proof.
  intros Hf. destruct R as [|T]; cbn [General.impl_base];
    unfold General.impl_base_void, General.impl_base_nonvoid;
    rewrite Hf; [reflexivity|].
  unfold General.verified_read, bind, General.verify.
  destruct (assigned _), policy; reflexivity.
Qed.

Lemma general_step_keeps_params R Params (a : gaction R Params)
      (s s' : gprocess R Params) :
  General.keeps_params a = true ->
  gstep a s = Some s' ->
  m_params (General.data (General.aux s'))
  = m_params (General.data (General.aux s)).
Proof.
  destruct a as [params|f|other| |g]; cbn [General.keeps_params];
    try discriminate; intros _ H; cbn [General.step] in H;
    injection H as <-; try reflexivity.
  destruct R; reflexivity.
Qed.

Lemma general_exec_keeps_params R Params (script : list (gaction R Params)) :
  forall s s' : gprocess R Params,
    forallb (@General.keeps_params W callable R Params) script = true ->
    gexec script s = Some s' ->
    m_params (General.data (General.aux s'))
    = m_params (General.data (General.aux s)).
Proof.
  induction script as [|a script IH]; intros s s' Hn H.
  - cbn in H. injection H as <-. reflexivity.
  - cbn [forallb] in Hn. apply andb_prop in Hn as [Ha Hn].
    cbn [General.exec] in H.
    destruct (gstep a s) as [s1|] eqn:E; [|discriminate].
    rewrite (IH _ _ Hn H). exact (general_step_keeps_params _ _ Ha E).
Qed.


(** C4.  When [func] is set, the call is the call of the callable: it
    is invoked with the arguments of the call, on a binding that holds
    them, and its completion, its effects and the state it leaves are
    those of the call, but for the one [m_count++] on the way out.  The
    engine itself does not read [result], assigned or not: it does not
    call [verify], and [result], the test state and the log of
    [verify] after the call are as the callable left them. *)
Theorem func_resolves_the_call
        (R : rtype) (Params : list ctype) (f : callable R Params)
        (params : tuple_params_t Params) (s : gprocess R Params) :
  General.func (General.aux s) = Some f ->
  let r := gcall params s in
  r = with_destructor (invoke f params) gdtor (captured params s)
  /\ m_params (General.data (General.aux (captured params s))) = params
  /\ result (General.data (General.aux (captured params s)))
     = result (General.data (General.aux s))
  /\ General.verify_log (captured params s) = General.verify_log s
  /\ (forall (c : completion (returned R)) (s_f : gprocess R Params),
         invoke f params (captured params s) = Exited c s_f ->
         r = Exited c (gdtor s_f)
         /\ General.verify_log (gdtor s_f) = General.verify_log s_f
         /\ result (General.data (General.aux (gdtor s_f)))
            = result (General.data (General.aux s_f))
         /\ General.func (General.aux (gdtor s_f))
            = General.func (General.aux s_f)
         /\ General.world (gdtor s_f) = General.world s_f)
  /\ (forall s_f : gprocess R Params,
         invoke f params (captured params s) = Aborted _ s_f ->
         r = Aborted _ s_f).
Proof.
  intros Hf. cbv zeta. rewrite general_call_unfold.
  unfold with_destructor.
  rewrite general_impl_base_func with (f := f) by exact Hf.
  split; [reflexivity|]. do 3 (split; [reflexivity|]).
  split.
  - intros c s_f ->. repeat split.
  - intros s_f ->. reflexivity.
Qed.

(** C5, as the code has it.  After a call with arguments [a1..ak]
    whose callable, if there is one, has left the capture store as it
    found it (it has not called the mock function again, nor reset the
    binding), [param<i>()] is [ai] for every position [i] in [1..k],
    and stays so through every statement of the test up to the next
    call or the next [reset()].  The arguments are stored before the
    outcome is resolved: the resolution starts on a binding that holds
    them. *)
Theorem params_captured_unless_rewritten
        (R : rtype) (Params : list ctype)
        (params : tuple_params_t Params) (s s1 s2 : gprocess R Params)
        (c : completion (returned R)) (script : list (gaction R Params)) :
  gcall params s = Exited c s1 ->
  (forall f, General.func (General.aux s) = Some f ->
             m_params
               (General.data
                  (General.aux
                     (final_state (invoke f params (captured params s)))))
             = params) ->
  forallb (@General.keeps_params W callable R Params) script = true ->
  gexec script s1 = Some s2 ->
  (forall i, 1 <= i <= List.length Params ->
             General.param i (General.aux s1) = get (i - 1) Params params
             /\ General.param i (General.aux s2)
                = get (i - 1) Params params)
  /\ (forall i, 1 <= i <= List.length Params ->
                General.param i (General.aux (captured params s))
                = get (i - 1) Params params)
  /\ gcall params s
     = with_destructor (gimpl_base params) gdtor (captured params s).
Proof.
  intros H Hframe Hn He.
  assert (H1 : m_params (General.data (General.aux s1)) = params).
  { rewrite general_call_unfold in H. unfold with_destructor in H.
    destruct (General.func (General.aux s)) as [f|] eqn:Hf.
    - specialize (Hframe f eq_refl).
      rewrite general_impl_base_func with (f := f) in H by exact Hf.
      destruct (invoke f params (captured params s)) as [s_a|c' s_f];
        [discriminate|].
      injection H as <- <-. exact Hframe.
    - pose proof (general_impl_base_no_func
                    params (captured params s) Hf) as Ha.
      destruct (gimpl_base params (captured params s)) as [s_a|c' s_r];
        [discriminate|].
      injection H as <- <-. cbn in Ha. cbn. rewrite Ha. reflexivity. }
  split; [|split].
  - intros i _. unfold General.param.
    rewrite (general_exec_keeps_params _ _ Hn He), H1. auto.
  - intros i _. reflexivity.
  - apply general_call_unfold.
Qed.

End AnyCallable.

(** ** The two engines *)
Section RestrictedIsGeneral.

Context {W exn : Type}.
Variable verify_error : exn.
Variable policy : verify_policy.

(** The engine whose callables are [function]s is the general engine,
    for the callables that leave the binding alone: every theorem
    about the first is a theorem about calls of such callables in the
    second. *)
Lemma restricted_is_general R Params (params : tuple_params_t Params)
      (s : @process W exn R Params) :
  General.mock_function (@invoke_function W exn) verify_error policy params
                        (to_general s)
  = map_state to_general (mock_function verify_error policy params s).
Proof.
  rewrite general_call_unfold, mock_function_unfold.
  unfold with_destructor.
  destruct R as [|T]; cbn [General.impl_base impl_base];
    unfold General.impl_base_void, General.impl_base_nonvoid,
      impl_base_void, impl_base_nonvoid;
    cbn [General.captured General.on_aux General.aux General.func
         to_general General.set_params on_aux aux func set_params];
    destruct (func (aux s)) as [f|]; try reflexivity.
  unfold General.verified_read, verified_read, bind, General.verify, verify.
  cbn [data result General.data].
  destruct (assigned _), policy; reflexivity.
Qed.

End RestrictedIsGeneral.

(** ** Callables that write the binding, at work on [int foo(int)] *)


(** [foo(5)] with a callable that resets the binding: the capture
    store holds value-initialised values, the callable is gone, and
    the counter is 1. *)
Example resetting_call :
  General.mock_function (invoke_code verify_abort) verify_failed
                        verify_abort (foo_args 5) (gfoo (Some ResetBinding))
  = Exited (Normal 0%Z)
           (General.Process
              (General.MockAux
                 any_code
                 (AuxData (NonVoid int_t) [int_t] (verified_init int_t)
                          (foo_args 0) 1 "int foo(int)")
                 None)
              [] []).
Proof. vm_compute. reflexivity. Qed.


Lemma func_resolves_the_call_witness :
  General.func (General.aux (gfoo (Some ResetBinding))) = Some ResetBinding
  /\ exists s_f,
      invoke_code verify_abort ResetBinding (foo_args 5)
                  (General.captured (foo_args 5)
                                    (gfoo (Some ResetBinding)))
      = Exited (Normal 0%Z) s_f
      /\ General.mock_function
           (invoke_code verify_abort) verify_failed verify_abort
           (foo_args 5) (gfoo (Some ResetBinding))
         = Exited (Normal 0%Z) (General.mock_impl_dtor s_f).
Proof.
  split; [reflexivity|]. eexists. split; [reflexivity|].
  destruct (func_resolves_the_call
              (invoke_code verify_abort) verify_failed verify_abort
              (foo_args 5) (gfoo (Some ResetBinding)) eq_refl)
    as (_ & _ & _ & _ & H & _).
  exact (proj1 (H _ _ eq_refl)).
Defined.

Lemma params_captured_unless_rewritten_witness :
  General.mock_function (invoke_code verify_abort) verify_failed
                        verify_abort (foo_args 5)
                        (gfoo (Some ReturnDefault))
  = Exited (Normal 0%Z) gfoo_called
  /\ forallb (@General.keeps_params _ _ _ _) gconfiguring = true
  /\ General.exec (invoke_code verify_abort) verify_failed verify_abort
                  gconfiguring gfoo_called = Some gfoo_configured
  /\ General.param 1 (General.aux gfoo_called) = 5%Z
  /\ General.param 1 (General.aux gfoo_configured) = 5%Z.
Proof.
  assert (E1 : General.mock_function
                 (invoke_code verify_abort) verify_failed verify_abort
                 (foo_args 5) (gfoo (Some ReturnDefault))
               = Exited (Normal 0%Z) gfoo_called)
    by (vm_compute; reflexivity).
  assert (E2 : General.exec
                 (invoke_code verify_abort) verify_failed verify_abort
                 gconfiguring gfoo_called = Some gfoo_configured)
    by (vm_compute; reflexivity).
  split; [exact E1|]. split; [reflexivity|]. split; [exact E2|].
  refine (proj1 (params_captured_unless_rewritten
                   (invoke_code verify_abort) verify_failed verify_abort
                   (gfoo (Some ReturnDefault)) gconfiguring
                   E1 _ eq_refl E2) 1 _).
  - intros f Hf. injection Hf as <-. reflexivity.
  - cbn. lia.
Defined.
